(** * Argument synthesis of the bake action (src/context.ts)

    A shallow embedding of [getArgs], [getBakeArgs], [getCommonArgs],
    [getSourceInput] and [noDefaultAttestations], and the properties of
    the token list they build.

    Conventions of the embedding:
    - a JavaScript string is a [string], an array of strings a
      [list string]; [args.push(a, b)] appends [[a; b]] at the end;
    - the [Inputs] object is shared and mutable ([inputs.allow.push]),
      so the functions of the synthesizer run in a state monad over
      [Inputs] with an exception ([throw new Error]); the state reached
      at the point of a throw is kept;
    - the collaborators of the toolkit (version oracles, metadata path,
      exporter predicate, attribute resolver, boolean parser) are
      fields of records. In the first part they return normally, and
      the template renderer is the one collaborator that may throw;
      the module [Throwing] gives the synthesizer again with every
      collaborator able to throw, and [getArgs_returning] relates the
      two. *)

From Stdlib Require Import String List Bool Arith Lia.
Import ListNotations.
Open Scope string_scope.
Open Scope list_scope.

(** ** Data *)

(** [interface Inputs] (context.ts, lines 13-29). *)
Record Inputs : Type := mkInputs {
  builder : string;
  workdir : string;
  source : string;
  allow : list string;
  call : string;
  files : list string;
  no_cache : bool;
  pull : bool;
  load : bool;
  provenance : string;
  push : bool;
  sbom : string;
  set : list string;
  targets : list string;
  github_token : string
}.

(** The part of [Toolkit] the synthesizer queries:
    [toolkit.buildx.versionSatisfies], [toolkit.buildkit.versionSatisfies]
    and [toolkit.buildxBake.getMetadataFilePath]. *)
Record Toolkit : Type := mkToolkit {
  buildx_versionSatisfies : string -> bool;
  buildkit_versionSatisfies : string -> string -> bool;
  buildxBake_getMetadataFilePath : string
}.

(** What the synthesizer reads from its surroundings: two static helpers
    of the toolkit ([Bake.hasDockerExporter], [Build.resolveProvenanceAttrs]),
    [Util.parseBool], the variable [BUILDX_NO_DEFAULT_ATTESTATIONS] of
    [process.env] ([None]: undefined) and
    [GitHub.context.payload.repository?.private] ([None]: undefined). *)
Record Host (BakeDefinition : Type) : Type := mkHost {
  Bake_hasDockerExporter : BakeDefinition -> bool -> bool;
  Build_resolveProvenanceAttrs : string -> string;
  Util_parseBool : string -> bool;
  env_BUILDX_NO_DEFAULT_ATTESTATIONS : option string;
  repository_private : option bool
}.

Arguments mkHost {BakeDefinition}.
Arguments Bake_hasDockerExporter {BakeDefinition}.
Arguments Build_resolveProvenanceAttrs {BakeDefinition}.
Arguments Util_parseBool {BakeDefinition}.
Arguments env_BUILDX_NO_DEFAULT_ATTESTATIONS {BakeDefinition}.
Arguments repository_private {BakeDefinition}.

(** A returned value or a thrown [Error] with its message. *)
Inductive result (A : Type) : Type :=
| Ok (value : A)
| Throw (message : string).

Arguments Ok {A}.
Arguments Throw {A}.

(** What [getSourceInput] reads: [core.getInput], the template renderer
    [handlebars.compile(template)({defaultContext: c})] (it throws on a
    template it cannot evaluate) and [Context.gitContext()]. *)
Record Runner : Type := mkRunner {
  core_getInput : string -> string;
  handlebars_render : string -> string -> result string;
  Context_gitContext : string
}.

(** ** JavaScript values *)

(** Truthiness of a string: every string but the empty one. *)
Definition truthy (s : string) : bool := negb (s =? "").

(** [a ?? d] on a possibly undefined value. *)
Definition nullish {A : Type} (a : option A) (d : A) : A :=
  match a with
  | Some v => v
  | None => d
  end.

(** [args.push(...items)]. *)
Definition Array_push (args items : list string) : list string :=
  args ++ items.

(** [Util.asyncForEach(array, callback)]: the callback runs on every
    element in index order; here it updates the array under
    construction. *)
Definition asyncForEach {A S : Type} (array : list A) (callback : S -> A -> S)
  (s : S) : S :=
  fold_left callback array s.

(** ** The state and exception monad of the synthesizer *)

Definition M (A : Type) : Type := Inputs -> result A * Inputs.

Definition ret {A : Type} (a : A) : M A := fun i => (Ok a, i).

Definition bind {A B : Type} (m : M A) (k : A -> M B) : M B :=
  fun i =>
    match m i with
    | (Ok a, i') => k a i'
    | (Throw e, i') => (Throw e, i')
    end.

Definition get : M Inputs := fun i => (Ok i, i).

Definition modify (f : Inputs -> Inputs) : M unit := fun i => (Ok tt, f i).

Definition throw {A : Type} (message : string) : M A :=
  fun i => (Throw message, i).

Notation "x <- m ;; k" := (bind m (fun x => k))
  (at level 61, m at next level, right associativity).
Notation "m ;;; k" := (bind m (fun _ => k))
  (at level 61, right associativity).

(** [inputs.allow.push(v)]: the one write to the shared record. *)
Definition allow_push (v : string) (i : Inputs) : Inputs :=
  {| builder := builder i;
     workdir := workdir i;
     source := source i;
     allow := allow i ++ [v];
     call := call i;
     files := files i;
     no_cache := no_cache i;
     pull := pull i;
     load := load i;
     provenance := provenance i;
     push := push i;
     sbom := sbom i;
     set := set i;
     targets := targets i;
     github_token := github_token i |}.

(** ** The functions of context.ts *)

Section Synthesizer.

Context {BakeDefinition : Type}.
Variable host : Host BakeDefinition.

(** [noDefaultAttestations] (lines 145-150). *)
Definition noDefaultAttestations : bool :=
  match env_BUILDX_NO_DEFAULT_ATTESTATIONS host with
  | Some v => if truthy v then Util_parseBool host v else false
  | None => false
  end.

(** [getBakeArgs] (lines 60-110). *)
Definition getBakeArgs (definition : BakeDefinition) (toolkit : Toolkit)
  : M (list string) :=
  let args := ["bake"] in
  inputs <- get ;;
  let args :=
    if truthy (source inputs) then Array_push args [source inputs] else args in
  args <-
    (if buildx_versionSatisfies toolkit ">=0.17.0" then
       (if buildx_versionSatisfies toolkit ">=0.18.0"
        then modify (allow_push "fs=*")
        else ret tt) ;;;
       inputs <- get ;;
       ret (asyncForEach (allow inputs)
              (fun args a => Array_push args ["--allow"; a]) args)
     else ret args) ;;
  inputs <- get ;;
  args <-
    (if truthy (call inputs) then
       (if negb (buildx_versionSatisfies toolkit ">=0.16.0")
        then throw "Buildx >= 0.16.0 is required to use the call flag."
        else ret tt) ;;;
       ret (Array_push args ["--call"; call inputs])
     else ret args) ;;
  let args :=
    asyncForEach (files inputs)
      (fun args file => Array_push args ["--file"; file]) args in
  let args :=
    asyncForEach (set inputs)
      (fun args s => Array_push args ["--set"; s]) args in
  let args :=
    if buildx_versionSatisfies toolkit ">=0.6.0"
    then Array_push args
           ["--metadata-file"; buildxBake_getMetadataFilePath toolkit]
    else args in
  let args :=
    if buildx_versionSatisfies toolkit ">=0.10.0" then
      let args :=
        if truthy (provenance inputs) then
          Array_push args ["--provenance"; provenance inputs]
        else if negb noDefaultAttestations
                && buildkit_versionSatisfies toolkit (builder inputs) ">=0.11.0"
                && negb (Bake_hasDockerExporter host definition (load inputs))
        then
          if nullish (repository_private host) false then
            Array_push args
              ["--provenance";
               Build_resolveProvenanceAttrs host "mode=min,inline-only=true"]
          else
            Array_push args
              ["--provenance"; Build_resolveProvenanceAttrs host "mode=max"]
        else args in
      if truthy (sbom inputs)
      then Array_push args ["--sbom"; sbom inputs]
      else args
    else args in
  ret args.

(** [getCommonArgs] (lines 112-130). *)
Definition getCommonArgs : M (list string) :=
  inputs <- get ;;
  let args := [] in
  let args := if no_cache inputs then Array_push args ["--no-cache"] else args in
  let args :=
    if truthy (builder inputs)
    then Array_push args ["--builder"; builder inputs]
    else args in
  let args := if pull inputs then Array_push args ["--pull"] else args in
  let args := if load inputs then Array_push args ["--load"] else args in
  let args := if push inputs then Array_push args ["--push"] else args in
  ret args.

(** [getArgs] (lines 51-58): the three spreads are evaluated from left
    to right on the same record. *)
Definition getArgs (definition : BakeDefinition) (toolkit : Toolkit)
  : M (list string) :=
  bake <- getBakeArgs definition toolkit ;;
  common <- getCommonArgs ;;
  inputs <- get ;;
  ret (bake ++ common ++ targets inputs).

End Synthesizer.

(** [getSourceInput] (lines 132-143). A throw of the renderer is not
    caught. *)
Definition getSourceInput (runner : Runner) (name : string) : result string :=
  match handlebars_render runner (core_getInput runner name)
          (Context_gitContext runner) with
  | Throw e => Throw e
  | Ok source =>
      let source :=
        if negb (truthy source) then Context_gitContext runner else source in
      let source := if source =? "." then "" else source in
      Ok source
  end.

(** ** Reading a token list *)

(** The values given to [flag] in a token list, read from left to
    right: a token equal to [flag] takes the token after it as its
    value, any other token is passed over. *)
Fixpoint flagValues (flag : string) (tokens : list string) : list string :=
  match tokens with
  | [] => []
  | t :: rest =>
      if t =? flag then
        match rest with
        | [] => []
        | v :: rest' => v :: flagValues flag rest'
        end
      else flagValues flag rest
  end.


(** ** The token list, phase by phase

    The description of section 4.2 of the specification, as functions
    of the record the phases read. [getBakeArgs_run] and [getArgs_run]
    below prove that the functions of context.ts compute it. *)

Definition when (b : bool) (l : list string) : list string :=
  if b then l else [].

Definition pairs (flag : string) (values : list string) : list string :=
  flat_map (fun v => [flag; v]) values.

Definition message_call_unsupported : string :=
  "Buildx >= 0.16.0 is required to use the call flag.".

Section Phases.

Context {BakeDefinition : Type}.
Variable host : Host BakeDefinition.
Variable definition : BakeDefinition.
Variable toolkit : Toolkit.

(** The record after the entitlement phase: ["fs=*"] is pushed when both
    gates are open. *)
Definition afterBake (i : Inputs) : Inputs :=
  if buildx_versionSatisfies toolkit ">=0.17.0"
     && buildx_versionSatisfies toolkit ">=0.18.0"
  then allow_push "fs=*" i
  else i.

(** The one failure of the synthesizer. *)
Definition callUnsupported (i : Inputs) : bool :=
  truthy (call i) && negb (buildx_versionSatisfies toolkit ">=0.16.0").

Definition sourceTokens (i : Inputs) : list string :=
  when (truthy (source i)) [source i].

Definition allowTokens (i : Inputs) : list string :=
  when (buildx_versionSatisfies toolkit ">=0.17.0") (pairs "--allow" (allow i)).

Definition callTokens (i : Inputs) : list string :=
  when (truthy (call i)) ["--call"; call i].

Definition metadataTokens : list string :=
  when (buildx_versionSatisfies toolkit ">=0.6.0")
    ["--metadata-file"; buildxBake_getMetadataFilePath toolkit].

(** The three gates of the default attestation. *)
Definition defaultProvenanceGate (i : Inputs) : bool :=
  negb (noDefaultAttestations host)
  && buildkit_versionSatisfies toolkit (builder i) ">=0.11.0"
  && negb (Bake_hasDockerExporter host definition (load i)).

(** The attributes of the default attestation, before resolution. *)
Definition defaultProvenanceAttrs : string :=
  if nullish (repository_private host) false
  then "mode=min,inline-only=true"
  else "mode=max".

Definition defaultProvenanceTokens (i : Inputs) : list string :=
  when (defaultProvenanceGate i)
    ["--provenance"; Build_resolveProvenanceAttrs host defaultProvenanceAttrs].

Definition provenanceTokens (i : Inputs) : list string :=
  if truthy (provenance i)
  then ["--provenance"; provenance i]
  else defaultProvenanceTokens i.

Definition sbomTokens (i : Inputs) : list string :=
  when (truthy (sbom i)) ["--sbom"; sbom i].

(** Everything [getBakeArgs] emits before the attestation phase. *)
Definition tokensBeforeAttestation (i : Inputs) : list string :=
  "bake" :: sourceTokens i ++ allowTokens i ++ callTokens i
    ++ pairs "--file" (files i) ++ pairs "--set" (set i) ++ metadataTokens.

Definition attestationTokens (i : Inputs) : list string :=
  when (buildx_versionSatisfies toolkit ">=0.10.0")
    (provenanceTokens i ++ sbomTokens i).

Definition bakeTokens (i : Inputs) : list string :=
  tokensBeforeAttestation i ++ attestationTokens i.

Definition commonTokens (i : Inputs) : list string :=
  when (no_cache i) ["--no-cache"]
    ++ when (truthy (builder i)) ["--builder"; builder i]
    ++ when (pull i) ["--pull"]
    ++ when (load i) ["--load"]
    ++ when (push i) ["--push"].

(** The values a token list carries that do not come from the [allow]
    list: the other fields of the record and what the collaborators
    return. *)
Definition valuesOutsideAllow (i : Inputs) : list string :=
  [source i; call i; buildxBake_getMetadataFilePath toolkit; provenance i;
   Build_resolveProvenanceAttrs host defaultProvenanceAttrs;
   sbom i; builder i]
    ++ files i ++ set i ++ targets i.

(** Everything [getArgs] emits after the entitlement phase. *)
Definition tokensAfterAllow (i : Inputs) : list string :=
  callTokens i ++ pairs "--file" (files i) ++ pairs "--set" (set i)
    ++ metadataTokens ++ attestationTokens i ++ commonTokens i ++ targets i.

(** Everything [getArgs] emits after the provenance tokens. *)
Definition tokensAfterProvenance (i : Inputs) : list string :=
  sbomTokens i ++ commonTokens i ++ targets i.

(** The values that do not follow a [--provenance] flag. *)
Definition valuesOutsideProvenance (i : Inputs) : list string :=
  [source i; call i; buildxBake_getMetadataFilePath toolkit; sbom i; builder i]
    ++ allow i ++ files i ++ set i ++ targets i.

End Phases.

(** The flags written after the entitlement phase. *)
Definition flagsAfterAllow : list string :=
  ["--call"; "--file"; "--set"; "--metadata-file"; "--provenance"; "--sbom";
   "--no-cache"; "--builder"; "--pull"; "--load"; "--push"].

(** The fixed tokens written around the provenance tokens. *)
Definition flagsAroundProvenance : list string :=
  ["bake"; "--allow"; "--call"; "--file"; "--set"; "--metadata-file"; "--sbom";
   "--no-cache"; "--builder"; "--pull"; "--load"; "--push"].

(** Replacing one field of the record. *)
Definition with_source (s : string) (i : Inputs) : Inputs :=
  mkInputs (builder i) (workdir i) s (allow i) (call i) (files i) (no_cache i)
    (pull i) (load i) (provenance i) (push i) (sbom i) (set i) (targets i)
    (github_token i).

Definition with_allow (l : list string) (i : Inputs) : Inputs :=
  mkInputs (builder i) (workdir i) (source i) l (call i) (files i) (no_cache i)
    (pull i) (load i) (provenance i) (push i) (sbom i) (set i) (targets i)
    (github_token i).

(** ** Concrete collaborators and records

    Used to run the functions on the examples of the specification. *)

(** An orchestrator that satisfies exactly the constraints of [supported],
    with a backend that satisfies every constraint or none. *)
Definition toolkit_supporting (supported : list string) (backend : bool)
  (path : string) : Toolkit :=
  {| buildx_versionSatisfies := fun c => existsb (String.eqb c) supported;
     buildkit_versionSatisfies := fun _ _ => backend;
     buildxBake_getMetadataFilePath := path |}.

Definition constraints_0_18 : list string :=
  [">=0.6.0"; ">=0.10.0"; ">=0.16.0"; ">=0.17.0"; ">=0.18.0"].

Definition constraints_0_16 : list string :=
  [">=0.6.0"; ">=0.10.0"; ">=0.16.0"].

Definition constraints_0_12 : list string :=
  [">=0.6.0"; ">=0.10.0"].

Definition toolkit_0_18 : Toolkit :=
  toolkit_supporting constraints_0_18 true "/tmp/metadata.json".

Definition toolkit_0_16 : Toolkit :=
  toolkit_supporting constraints_0_16 true "/tmp/metadata.json".

Definition toolkit_0_12 : Toolkit :=
  toolkit_supporting constraints_0_12 true "/tmp/metadata.json".

(** A host over definitions summed up by one boolean, "some target
    exports with the docker exporter": the exporter predicate holds for
    such a definition, and for any definition when a load is requested. *)
Definition host_with (optout : option string) (private : option bool)
  : Host bool :=
  {| Bake_hasDockerExporter := fun definition load => definition || load;
     Build_resolveProvenanceAttrs :=
       fun attrs => String.append attrs ",builder-id=ci";
     Util_parseBool :=
       fun v => existsb (String.eqb v) ["1"; "t"; "T"; "true"; "TRUE"; "True"];
     env_BUILDX_NO_DEFAULT_ATTESTATIONS := optout;
     repository_private := private |}.

Definition host_public : Host bool := host_with None (Some false).

Definition host_private : Host bool := host_with None (Some true).

Definition host_optout : Host bool := host_with (Some "true") (Some true).

(** The record of the end-to-end example of the specification. *)
Definition example_inputs (wd : string) : Inputs :=
  {| builder := "";
     workdir := wd;
     source := "";
     allow := [];
     call := "";
     files := ["docker-bake.hcl"];
     no_cache := false;
     pull := false;
     load := true;
     provenance := "";
     push := false;
     sbom := "";
     set := [];
     targets := ["app"];
     github_token := "" |}.

(** The same build pushed to a registry instead of loaded. *)
Definition push_inputs : Inputs :=
  {| builder := "";
     workdir := ".";
     source := "";
     allow := [];
     call := "";
     files := ["docker-bake.hcl"];
     no_cache := false;
     pull := false;
     load := false;
     provenance := "";
     push := true;
     sbom := "";
     set := [];
     targets := ["app"];
     github_token := "" |}.

(** A record that asks for a call mode and grants entitlements. *)
Definition check_inputs : Inputs :=
  {| builder := "";
     workdir := ".";
     source := "";
     allow := ["network.host"];
     call := "check";
     files := ["docker-bake.hcl"];
     no_cache := false;
     pull := false;
     load := false;
     provenance := "";
     push := false;
     sbom := "";
     set := [];
     targets := ["app"];
     github_token := "" |}.

(** The record of the example, granting ["fs=*"] itself. *)
Definition fs_inputs : Inputs := with_allow ["fs=*"] (example_inputs ".").

(** A record whose target list carries an entitlement flag. *)
Definition stray_inputs : Inputs :=
  {| builder := "";
     workdir := ".";
     source := "";
     allow := ["network.host"];
     call := "";
     files := ["docker-bake.hcl"];
     no_cache := false;
     pull := false;
     load := false;
     provenance := "";
     push := false;
     sbom := "";
     set := [];
     targets := ["app"; "--allow"; "security.insecure"];
     github_token := "" |}.

(** A renderer that substitutes nothing and rejects an unclosed
    mustache. *)
Definition runner_with (raw context : string) : Runner :=
  {| core_getInput := fun _ => raw;
     handlebars_render :=
       fun template _ =>
         if template =? "{{" then Throw "Parse error" else Ok template;
     Context_gitContext := context |}.

(** ** Building the record

    [getInputs] (lines 31-49) reads the record from the inputs of the
    action. *)

(** What [getInputs] reads beside [core.getInput] and the source:
    [Util.getInputList(name)], [Util.getInputList(name, {ignoreComma:
    true, quote: false})], [core.getBooleanInput] and
    [Build.getProvenanceInput], taken to return normally like the
    other collaborators. *)
Record Action : Type := mkAction {
  Util_getInputList : string -> list string;
  Util_getInputList_verbatim : string -> list string;
  core_getBooleanInput : string -> bool;
  Build_getProvenanceInput : string -> string
}.

(** [a || d] on strings. *)
Definition or_else (a d : string) : string := if truthy a then a else d.

(** [getInputs] (lines 31-49): the fields of the object literal are
    evaluated in the order they are written; a throw of
    [getSourceInput] leaves the function. *)
Definition getInputs (runner : Runner) (action : Action) : result Inputs :=
  let builder_ := core_getInput runner "builder" in
  let workdir_ := or_else (core_getInput runner "workdir") "." in
  match getSourceInput runner "source" with
  | Throw e => Throw e
  | Ok source_ =>
      Ok {| builder := builder_;
            workdir := workdir_;
            source := source_;
            allow := Util_getInputList action "allow";
            call := core_getInput runner "call";
            files := Util_getInputList action "files";
            no_cache := core_getBooleanInput action "no-cache";
            pull := core_getBooleanInput action "pull";
            load := core_getBooleanInput action "load";
            provenance := Build_getProvenanceInput action "provenance";
            push := core_getBooleanInput action "push";
            sbom := core_getInput runner "sbom";
            set := Util_getInputList_verbatim action "set";
            targets := Util_getInputList action "targets";
            github_token := core_getInput runner "github-token" |}
  end.

(** ** The token list as command-line arguments

    A second view of the list of [getArgs]: every [args.push] of the
    source writes a positional argument, a switch, or a flag with its
    value. [renderAll_allArgs] proves that the tokens of these
    arguments are the list of the phases. *)

Inductive arg : Type :=
| Pos (value : string)
| Switch (flag : string)
| Opt (flag value : string).

Definition render (a : arg) : list string :=
  match a with
  | Pos v => [v]
  | Switch f => [f]
  | Opt f v => [f; v]
  end.

Definition renderAll (args : list arg) : list string := flat_map render args.

Definition whenA (b : bool) (l : list arg) : list arg := if b then l else [].

Definition opts (flag : string) (values : list string) : list arg :=
  map (Opt flag) values.

(** The values given to [flag] by a list of arguments. *)
Definition optValues (flag : string) (args : list arg) : list string :=
  flat_map (fun a =>
              match a with
              | Opt f v => if f =? flag then [v] else []
              | _ => []
              end) args.

(** Whether a list of arguments sets the switch [flag]. *)
Definition switchSet (flag : string) (args : list arg) : bool :=
  existsb (fun a =>
             match a with
             | Switch f => f =? flag
             | _ => false
             end) args.

Section ArgumentView.

Context {BakeDefinition : Type}.
Variable host : Host BakeDefinition.
Variable definition : BakeDefinition.
Variable toolkit : Toolkit.

Definition provenanceArgs (i : Inputs) : list arg :=
  if truthy (provenance i)
  then [Opt "--provenance" (provenance i)]
  else whenA (defaultProvenanceGate host definition toolkit i)
         [Opt "--provenance"
            (Build_resolveProvenanceAttrs host (defaultProvenanceAttrs host))].

Definition bakeArgs (i : Inputs) : list arg :=
  Pos "bake" :: whenA (truthy (source i)) [Pos (source i)]
    ++ whenA (buildx_versionSatisfies toolkit ">=0.17.0")
         (opts "--allow" (allow i))
    ++ whenA (truthy (call i)) [Opt "--call" (call i)]
    ++ opts "--file" (files i)
    ++ opts "--set" (set i)
    ++ whenA (buildx_versionSatisfies toolkit ">=0.6.0")
         [Opt "--metadata-file" (buildxBake_getMetadataFilePath toolkit)]
    ++ whenA (buildx_versionSatisfies toolkit ">=0.10.0")
         (provenanceArgs i ++ whenA (truthy (sbom i)) [Opt "--sbom" (sbom i)]).

Definition commonArgs (i : Inputs) : list arg :=
  whenA (no_cache i) [Switch "--no-cache"]
    ++ whenA (truthy (builder i)) [Opt "--builder" (builder i)]
    ++ whenA (pull i) [Switch "--pull"]
    ++ whenA (load i) [Switch "--load"]
    ++ whenA (push i) [Switch "--push"].

Definition allArgs (i : Inputs) : list arg :=
  bakeArgs i ++ commonArgs i ++ map Pos (targets i).

(** Every value a token list can carry: the fields of the record that
    are written, the metadata path and the resolved default
    attributes. *)
Definition fieldValues (i : Inputs) : list string :=
  allow i ++ valuesOutsideAllow host toolkit i.

End ArgumentView.

(** The flags that take no value, and those that take one. *)
Definition switchFlags : list string :=
  ["--no-cache"; "--pull"; "--load"; "--push"].

Definition optionFlags : list string :=
  ["--allow"; "--call"; "--file"; "--set"; "--metadata-file"; "--provenance";
   "--sbom"; "--builder"].

(** An argument written with the values [values]. *)
Definition wellFormed (values : list string) (a : arg) : Prop :=
  match a with
  | Pos v => In v ("bake" :: values)
  | Switch f => In f switchFlags
  | Opt f v => In f optionFlags /\ In v values
  end.

(** An argument that reads as itself when the values of [flag] are
    read: neither a positional argument, nor a switch, nor the value of
    another flag is [flag]. *)
Definition clean (flag : string) (a : arg) : Prop :=
  match a with
  | Pos v => v <> flag
  | Switch f => f <> flag
  | Opt f v => f = flag \/ v <> flag
  end.

(** The same when the switch [flag] is looked for. *)
Definition cleanSwitch (flag : string) (a : arg) : Prop :=
  match a with
  | Pos v => v <> flag
  | Switch _ => True
  | Opt f v => f <> flag /\ v <> flag
  end.

(** Replacing the fields [getArgs] does not write. *)
Definition with_workdir (w : string) (i : Inputs) : Inputs :=
  mkInputs (builder i) w (source i) (allow i) (call i) (files i) (no_cache i)
    (pull i) (load i) (provenance i) (push i) (sbom i) (set i) (targets i)
    (github_token i).

Definition with_github_token (t : string) (i : Inputs) : Inputs :=
  mkInputs (builder i) (workdir i) (source i) (allow i) (call i) (files i)
    (no_cache i) (pull i) (load i) (provenance i) (push i) (sbom i) (set i)
    (targets i) t.

(** Replacing the attestation fields. *)
Definition with_attestations (p s : string) (i : Inputs) : Inputs :=
  mkInputs (builder i) (workdir i) (source i) (allow i) (call i) (files i)
    (no_cache i) (pull i) (load i) p (push i) s (set i) (targets i)
    (github_token i).

(** Replacing the opt-out variable of the environment. *)
Definition with_optout {BakeDefinition : Type} (v : option string)
  (h : Host BakeDefinition) : Host BakeDefinition :=
  mkHost (Bake_hasDockerExporter h) (Build_resolveProvenanceAttrs h)
    (Util_parseBool h) v (repository_private h).

(** The record [n] calls of [getArgs] in a row leave. *)
Definition afterCalls {BakeDefinition : Type} (host : Host BakeDefinition)
  (definition : BakeDefinition) (toolkit : Toolkit) (n : nat) (i : Inputs)
  : Inputs :=
  Nat.iter n (fun r => snd (getArgs host definition toolkit r)) i.

(** An orchestrator at 0.17: entitlements, no implicit one. *)
Definition constraints_0_17 : list string :=
  [">=0.6.0"; ">=0.10.0"; ">=0.16.0"; ">=0.17.0"].

Definition toolkit_0_17 : Toolkit :=
  toolkit_supporting constraints_0_17 true "/tmp/metadata.json".

(** An orchestrator older than every gate. *)
Definition toolkit_0_5 : Toolkit :=
  toolkit_supporting [] true "/tmp/metadata.json".

(** A record with every kind of field filled in. *)
Definition full_inputs : Inputs :=
  {| builder := "remote";
     workdir := "build";
     source := "https://github.com/o/r.git#main";
     allow := ["network.host"; "security.insecure"];
     call := "check";
     files := ["docker-bake.hcl"; "override.hcl"];
     no_cache := true;
     pull := false;
     load := false;
     provenance := "mode=max";
     push := true;
     sbom := "true";
     set := ["app.args.V=1,2"; "*.platform=linux/amd64"];
     targets := ["app"; "db"];
     github_token := "ghs_secret" |}.

(** The inputs of an action, given as association lists. *)
Definition action_with (lists : list (string * list string))
  (bools : list (string * bool)) (prov : string) : Action :=
  let find {A} (d : A) (l : list (string * A)) (name : string) : A :=
    match List.find (fun kv => fst kv =? name) l with
    | Some kv => snd kv
    | None => d
    end in
  {| Util_getInputList := find [] lists;
     Util_getInputList_verbatim := find [] lists;
     core_getBooleanInput := find false bools;
     Build_getProvenanceInput := fun _ => prov |}.

(** A runner whose inputs are given as an association list, with the
    renderer of [runner_with]. *)
Definition runner_of (inputs : list (string * string)) (context : string)
  : Runner :=
  {| core_getInput :=
       fun name =>
         match List.find (fun kv => fst kv =? name) inputs with
         | Some kv => snd kv
         | None => ""
         end;
     handlebars_render :=
       fun template _ =>
         if template =? "{{" then Throw "Parse error" else Ok template;
     Context_gitContext := context |}.

(** ** Collaborators that throw

    The functions of the synthesizer once more, with every call of a
    collaborator able to throw: the version queries, the metadata
    path, [Util.parseBool], the exporter predicate and the attribute
    resolver return a [result], and a [Throw] leaves the function at
    the call, as nothing catches it in context.ts. The calls are made
    in the order of the source, [&&] evaluating its right operand only
    when the left one holds. [getArgs_returning] proves that, on
    collaborators that return, these are the functions above. *)

(** Awaiting a call that may throw. *)
Definition lift {A : Type} (r : result A) : M A := fun i => (r, i).

Module Throwing.

Record Toolkit : Type := mkToolkit {
  buildx_versionSatisfies : string -> result bool;
  buildkit_versionSatisfies : string -> string -> result bool;
  buildxBake_getMetadataFilePath : result string
}.

Record Host (BakeDefinition : Type) : Type := mkHost {
  Bake_hasDockerExporter : BakeDefinition -> bool -> result bool;
  Build_resolveProvenanceAttrs : string -> result string;
  Util_parseBool : string -> result bool;
  env_BUILDX_NO_DEFAULT_ATTESTATIONS : option string;
  repository_private : option bool
}.

Arguments mkHost {BakeDefinition}.
Arguments Bake_hasDockerExporter {BakeDefinition}.
Arguments Build_resolveProvenanceAttrs {BakeDefinition}.
Arguments Util_parseBool {BakeDefinition}.
Arguments env_BUILDX_NO_DEFAULT_ATTESTATIONS {BakeDefinition}.
Arguments repository_private {BakeDefinition}.

Section Synthesizer.

Context {BakeDefinition : Type}.
Variable host : Host BakeDefinition.

(** [noDefaultAttestations] (lines 145-150). *)
Definition noDefaultAttestations : result bool :=
  match env_BUILDX_NO_DEFAULT_ATTESTATIONS host with
  | Some v => if truthy v then Util_parseBool host v else Ok false
  | None => Ok false
  end.

(** [getBakeArgs] (lines 60-110). *)
Definition getBakeArgs (definition : BakeDefinition) (toolkit : Toolkit)
  : M (list string) :=
  let args := ["bake"] in
  inputs <- get ;;
  let args :=
    if truthy (source inputs) then Array_push args [source inputs] else args in
  sat17 <- lift (buildx_versionSatisfies toolkit ">=0.17.0") ;;
  args <-
    (if sat17 : bool then
       sat18 <- lift (buildx_versionSatisfies toolkit ">=0.18.0") ;;
       (if sat18 : bool then modify (allow_push "fs=*") else ret tt) ;;;
       inputs <- get ;;
       ret (asyncForEach (allow inputs)
              (fun args a => Array_push args ["--allow"; a]) args)
     else ret args) ;;
  inputs <- get ;;
  args <-
    (if truthy (call inputs) then
       sat16 <- lift (buildx_versionSatisfies toolkit ">=0.16.0") ;;
       (if negb sat16
        then throw "Buildx >= 0.16.0 is required to use the call flag."
        else ret tt) ;;;
       ret (Array_push args ["--call"; call inputs])
     else ret args) ;;
  let args :=
    asyncForEach (files inputs)
      (fun args file => Array_push args ["--file"; file]) args in
  let args :=
    asyncForEach (set inputs)
      (fun args s => Array_push args ["--set"; s]) args in
  sat6 <- lift (buildx_versionSatisfies toolkit ">=0.6.0") ;;
  args <-
    (if sat6 : bool then
       path <- lift (buildxBake_getMetadataFilePath toolkit) ;;
       ret (Array_push args ["--metadata-file"; path])
     else ret args) ;;
  sat10 <- lift (buildx_versionSatisfies toolkit ">=0.10.0") ;;
  args <-
    (if sat10 : bool then
       args <-
         (if truthy (provenance inputs) then
            ret (Array_push args ["--provenance"; provenance inputs])
          else
            optout <- lift noDefaultAttestations ;;
            gate <-
              (if negb optout then
                 backend <-
                   lift (buildkit_versionSatisfies toolkit (builder inputs)
                           ">=0.11.0") ;;
                 if backend : bool then
                   docker <-
                     lift (Bake_hasDockerExporter host definition
                             (load inputs)) ;;
                   ret (negb docker)
                 else ret false
               else ret false) ;;
            if gate : bool then
              if nullish (repository_private host) false then
                attrs <-
                  lift (Build_resolveProvenanceAttrs host
                          "mode=min,inline-only=true") ;;
                ret (Array_push args ["--provenance"; attrs])
              else
                attrs <- lift (Build_resolveProvenanceAttrs host "mode=max") ;;
                ret (Array_push args ["--provenance"; attrs])
            else ret args) ;;
       ret (if truthy (sbom inputs)
            then Array_push args ["--sbom"; sbom inputs]
            else args)
     else ret args) ;;
  ret args.

(** [getArgs] (lines 51-58); [getCommonArgs] calls no collaborator. *)
Definition getArgs (definition : BakeDefinition) (toolkit : Toolkit)
  : M (list string) :=
  bake <- getBakeArgs definition toolkit ;;
  common <- getCommonArgs ;;
  inputs <- get ;;
  ret (bake ++ common ++ targets inputs).


End Synthesizer.

End Throwing.






(** ** Lemmas on the basic operations *)

Lemma truthy_false_iff (s : string) : truthy s = false <-> s = "".
Proof.
  unfold truthy. rewrite negb_false_iff. apply String.eqb_eq.
Qed.

Lemma truthy_true_iff (s : string) : truthy s = true <-> s <> "".
Proof.
  unfold truthy. rewrite negb_true_iff. apply String.eqb_neq.
Qed.

Lemma asyncForEach_push (flag : string) (values args : list string) :
  asyncForEach values (fun args v => Array_push args [flag; v]) args
  = args ++ pairs flag values.
Proof.
  unfold asyncForEach, Array_push, pairs.
  revert args. induction values as [|v values IH]; intros args; simpl.
  - now rewrite app_nil_r.
  - rewrite IH, <- app_assoc. reflexivity.
Qed.

Lemma push_when (b : bool) (args items : list string) :
  (if b then Array_push args items else args) = args ++ when b items.
Proof.
  destruct b; simpl; [reflexivity | now rewrite app_nil_r].
Qed.

Section Run.

Context {BakeDefinition : Type}.
Variable host : Host BakeDefinition.
Variable definition : BakeDefinition.
Variable toolkit : Toolkit.

(** What [getBakeArgs] computes, in one equation: the record it
    leaves, and either the exception or the tokens of the phases read
    on that record. *)
Lemma getBakeArgs_run (i : Inputs) :
  getBakeArgs host definition toolkit i
  = (if callUnsupported toolkit i
     then Throw message_call_unsupported
     else Ok (bakeTokens host definition toolkit (afterBake toolkit i)),
     afterBake toolkit i).
Proof.
  unfold getBakeArgs, callUnsupported, afterBake, bakeTokens,
    tokensBeforeAttestation, attestationTokens, provenanceTokens,
    defaultProvenanceTokens, defaultProvenanceGate, defaultProvenanceAttrs,
    sbomTokens, metadataTokens, callTokens, allowTokens, sourceTokens,
    message_call_unsupported.
  unfold bind, get, ret, modify, throw.
  destruct (buildx_versionSatisfies toolkit ">=0.17.0") eqn:E17;
    destruct (buildx_versionSatisfies toolkit ">=0.18.0") eqn:E18;
    destruct (truthy (call i)) eqn:Ec;
    destruct (buildx_versionSatisfies toolkit ">=0.16.0") eqn:E16;
    cbn -[truthy String.eqb asyncForEach Array_push when pairs];
    rewrite ?Ec; cbn -[truthy String.eqb asyncForEach Array_push when pairs];
    try reflexivity.
  all: f_equal; f_equal.
  all: rewrite ?asyncForEach_push, ?push_when.
  all: destruct (buildx_versionSatisfies toolkit ">=0.10.0");
    destruct (truthy (provenance i));
    rewrite ?push_when.
  all: unfold Array_push, when.
  all: repeat (progress (rewrite <- ?app_assoc; cbn [app])).
  all: repeat match goal with
         | |- context [if ?b then _ else _] => destruct b
         end.
  all: repeat (progress (rewrite <- ?app_assoc, ?app_nil_r; cbn [app]));
    reflexivity.
Qed.

End Run.

Lemma getCommonArgs_run (i : Inputs) :
  getCommonArgs i = (Ok (commonTokens i), i).
Proof.
  unfold getCommonArgs, commonTokens, bind, get, ret.
  rewrite !push_when. cbn [app]. rewrite <- !app_assoc. reflexivity.
Qed.

Section AfterBake.

Variable toolkit : Toolkit.

(** [afterBake] changes the [allow] field only. *)
Lemma afterBake_allow (i : Inputs) :
  allow (afterBake toolkit i)
  = allow i ++ when (buildx_versionSatisfies toolkit ">=0.17.0"
                     && buildx_versionSatisfies toolkit ">=0.18.0") ["fs=*"].
Proof.
  unfold afterBake.
  destruct (_ && _); simpl; [reflexivity | now rewrite app_nil_r].
Qed.

Lemma afterBake_with_allow (i : Inputs) :
  afterBake toolkit i = with_allow (allow (afterBake toolkit i)) i.
Proof.
  unfold afterBake. destruct (_ && _); [reflexivity | now destruct i].
Qed.

Lemma commonTokens_with_allow (l : list string) (i : Inputs) :
  commonTokens (with_allow l i) = commonTokens i.
Proof. reflexivity. Qed.

Lemma commonTokens_afterBake (i : Inputs) :
  commonTokens (afterBake toolkit i) = commonTokens i.
Proof. rewrite afterBake_with_allow. apply commonTokens_with_allow. Qed.

Lemma targets_afterBake (i : Inputs) :
  targets (afterBake toolkit i) = targets i.
Proof. now rewrite afterBake_with_allow. Qed.

Lemma callUnsupported_false_iff (i : Inputs) :
  callUnsupported toolkit i = false
  <-> call i = "" \/ buildx_versionSatisfies toolkit ">=0.16.0" = true.
Proof.
  unfold callUnsupported.
  rewrite andb_false_iff, negb_false_iff, truthy_false_iff. reflexivity.
Qed.


End AfterBake.

Section RunArgs.

Context {BakeDefinition : Type}.
Variable host : Host BakeDefinition.
Variable definition : BakeDefinition.
Variable toolkit : Toolkit.

(** What [getArgs] computes, in one equation. *)
Lemma getArgs_run (i : Inputs) :
  getArgs host definition toolkit i
  = (if callUnsupported toolkit i
     then Throw message_call_unsupported
     else Ok (bakeTokens host definition toolkit (afterBake toolkit i)
              ++ commonTokens i ++ targets i),
     afterBake toolkit i).
Proof.
  unfold getArgs, bind at 1. rewrite getBakeArgs_run.
  destruct (callUnsupported toolkit i); [reflexivity |].
  unfold bind at 1. rewrite getCommonArgs_run.
  unfold bind, get, ret.
  now rewrite commonTokens_afterBake, targets_afterBake.
Qed.

End RunArgs.

(** ** Lemmas on reading a token list *)

Lemma in_pairs (flag x : string) (values : list string) :
  In x (pairs flag values) -> flag = x \/ In x values.
Proof.
  unfold pairs. rewrite in_flat_map. intros [v [Hv Hx]].
  simpl in Hx. destruct Hx as [<- | [<- | []]]; auto.
Qed.

Lemma pairs_app (flag : string) (l1 l2 : list string) :
  pairs flag (l1 ++ l2) = pairs flag l1 ++ pairs flag l2.
Proof. unfold pairs. apply flat_map_app. Qed.

Lemma flagValues_skip (flag t : string) (rest : list string) :
  t <> flag -> flagValues flag (t :: rest) = flagValues flag rest.
Proof.
  intros H. simpl. apply String.eqb_neq in H. now rewrite H.
Qed.

Lemma flagValues_take (flag v : string) (rest : list string) :
  flagValues flag (flag :: v :: rest) = v :: flagValues flag rest.
Proof. simpl. now rewrite String.eqb_refl. Qed.

Lemma flagValues_passed_over (flag : string) (before rest : list string) :
  ~ In flag before ->
  flagValues flag (before ++ rest) = flagValues flag rest.
Proof.
  induction before as [|t before IH]; intros H; [reflexivity |].
  rewrite <- app_comm_cons, flagValues_skip.
  - apply IH. intros Hin. apply H. now right.
  - intros ->. apply H. now left.
Qed.

Lemma flagValues_absent (flag : string) (tokens : list string) :
  ~ In flag tokens -> flagValues flag tokens = [].
Proof.
  intros H. rewrite <- (app_nil_r tokens).
  now rewrite flagValues_passed_over.
Qed.

Lemma flagValues_pairs (flag : string) (values rest : list string) :
  flagValues flag (pairs flag values ++ rest) = values ++ flagValues flag rest.
Proof.
  induction values as [|v values IH]; [reflexivity |].
  change (pairs flag (v :: values) ++ rest)
    with (flag :: v :: (pairs flag values ++ rest)).
  rewrite flagValues_take, IH. reflexivity.
Qed.

(** A flag that is read has been written. *)
Lemma flagValues_nonempty_in (flag : string) (tokens : list string) :
  flagValues flag tokens <> [] -> In flag tokens.
Proof.
  intros H. destruct (in_dec string_dec flag tokens) as [Hin | Hout]; auto.
  now rewrite flagValues_absent in H.
Qed.

(** ** The end-to-end example *)

(** C1. On the record of the end-to-end example, with an orchestrator
    that satisfies the five constraints, a backend that satisfies
    [>=0.11.0], the opt-out not in force, a definition for which the
    exporter predicate holds under [load = true] and a public
    repository, [getArgs] returns exactly
    [bake --allow fs=* --file docker-bake.hcl --metadata-file p --load app],
    [p] being the path of the metadata file; the token [--provenance]
    is at no position of it, the one of [p] apart. *)
Theorem getArgs_end_to_end {BakeDefinition : Type}
  (host : Host BakeDefinition) (definition : BakeDefinition)
  (toolkit : Toolkit) (wd : string) :
  buildx_versionSatisfies toolkit ">=0.6.0" = true ->
  buildx_versionSatisfies toolkit ">=0.10.0" = true ->
  buildx_versionSatisfies toolkit ">=0.16.0" = true ->
  buildx_versionSatisfies toolkit ">=0.17.0" = true ->
  buildx_versionSatisfies toolkit ">=0.18.0" = true ->
  buildkit_versionSatisfies toolkit "" ">=0.11.0" = true ->
  noDefaultAttestations host = false ->
  Bake_hasDockerExporter host definition true = true ->
  repository_private host = Some false ->
  let p := buildxBake_getMetadataFilePath toolkit in
  let expected :=
    ["bake"; "--allow"; "fs=*"; "--file"; "docker-bake.hcl";
     "--metadata-file"; p; "--load"; "app"] in
  fst (getArgs host definition toolkit (example_inputs wd)) = Ok expected
  /\ forall n, nth_error expected n = Some "--provenance" -> n = 6.
Proof.
  intros H6 H10 H16 H17 H18 Hbk Hopt Hexp Hpub p expected. split.
  - rewrite getArgs_run.
    unfold callUnsupported, bakeTokens, tokensBeforeAttestation,
      attestationTokens, provenanceTokens, defaultProvenanceTokens,
      defaultProvenanceGate, metadataTokens, allowTokens, afterBake.
    rewrite H6, H10, H17, H18. cbn. rewrite Hexp, Hbk, Hopt. reflexivity.
  - intros n Hn.
    do 9 (destruct n as [|n]; [cbn in Hn; try discriminate Hn; try reflexivity |]).
    cbn in Hn. destruct n; discriminate Hn.
Qed.

Lemma getArgs_end_to_end_witness :
  fst (getArgs host_public true toolkit_0_18 (example_inputs "."))
  = Ok ["bake"; "--allow"; "fs=*"; "--file"; "docker-bake.hcl";
        "--metadata-file"; "/tmp/metadata.json"; "--load"; "app"]
  /\ forall n,
      nth_error ["bake"; "--allow"; "fs=*"; "--file"; "docker-bake.hcl";
                 "--metadata-file"; "/tmp/metadata.json"; "--load"; "app"] n
      = Some "--provenance" -> n = 6.
Proof.
  apply (getArgs_end_to_end host_public true toolkit_0_18 ".");
    reflexivity.
Defined.

(** ** The three phases *)

(** C2. Whenever [getArgs] returns a token list, [getBakeArgs] and
    [getCommonArgs] return one as well, and the list of [getArgs] is
    the one of [getBakeArgs], then the one of [getCommonArgs] (the same
    before and after [getBakeArgs] has run), then the [targets] as they
    are. *)
Theorem getArgs_three_phases {BakeDefinition : Type}
  (host : Host BakeDefinition) (definition : BakeDefinition)
  (toolkit : Toolkit) (inputs : Inputs) (out : list string) :
  fst (getArgs host definition toolkit inputs) = Ok out ->
  exists bake common,
    fst (getBakeArgs host definition toolkit inputs) = Ok bake
    /\ fst (getCommonArgs inputs) = Ok common
    /\ fst (getCommonArgs (snd (getBakeArgs host definition toolkit inputs)))
       = Ok common
    /\ out = bake ++ common ++ targets inputs.
Proof.
  unfold getArgs, bind at 1.
  destruct (getBakeArgs host definition toolkit inputs) as [[bake | e] i'] eqn:E;
    [| discriminate].
  assert (Hi' : i' = afterBake toolkit inputs).
  { pose proof (getBakeArgs_run host definition toolkit inputs) as R.
    rewrite E in R. now inversion R. }
  unfold bind at 1. rewrite getCommonArgs_run. unfold bind, get, ret.
  cbn [fst]. intros [= <-]. exists bake, (commonTokens inputs).
  rewrite !getCommonArgs_run. subst i'. cbn [fst snd].
  now rewrite commonTokens_afterBake, targets_afterBake.
Qed.

Lemma getArgs_three_phases_witness :
  exists bake common,
    fst (getBakeArgs host_public false toolkit_0_18 push_inputs) = Ok bake
    /\ fst (getCommonArgs push_inputs) = Ok common
    /\ fst (getCommonArgs
              (snd (getBakeArgs host_public false toolkit_0_18 push_inputs)))
       = Ok common
    /\ ["bake"; "--allow"; "fs=*"; "--file"; "docker-bake.hcl";
        "--metadata-file"; "/tmp/metadata.json";
        "--provenance"; "mode=max,builder-id=ci"; "--push"; "app"]
       = bake ++ common ++ targets push_inputs.
Proof.
  apply (getArgs_three_phases host_public false toolkit_0_18 push_inputs).
  reflexivity.
Defined.

(** ** The call mode *)


(** ** Where the tokens of a list come from *)

Lemma incl_when (b : bool) (l m : list string) :
  incl l m -> incl (when b l) m.
Proof. destruct b; [trivial | intros _; apply incl_nil_l]. Qed.

Lemma incl_if (b : bool) (l1 l2 m : list string) :
  incl l1 m -> incl l2 m -> incl (if b then l1 else l2) m.
Proof. now destruct b. Qed.

Lemma incl_pairs (flag : string) (values m : list string) :
  In flag m -> incl values m -> incl (pairs flag values) m.
Proof.
  intros Hf Hv x Hx. apply in_pairs in Hx. destruct Hx as [<- | Hx]; auto.
Qed.

(** Finds a token in a list written with [::] and [++]. *)
Ltac pick_member :=
  first [ reflexivity | assumption | left; pick_member | right; pick_member ].

Ltac find_member := rewrite ?in_app_iff; cbn [In]; pick_member.

(** Splits an inclusion along the phases of the list on its left. *)
Ltac origin_tac :=
  repeat match goal with
    | |- incl [] _ => apply incl_nil_l
    | |- incl (_ ++ _) _ => apply incl_app
    | |- incl (when _ _) _ => apply incl_when
    | |- incl (if _ then _ else _) _ => apply incl_if
    | |- incl (pairs _ _) _ => apply incl_pairs
    | |- incl (_ :: _) _ => apply incl_cons
    end;
  try (let y := fresh "y" in let Hy := fresh "Hy" in intros y Hy);
  find_member.

Section Origins.

Context {BakeDefinition : Type}.
Variable host : Host BakeDefinition.
Variable definition : BakeDefinition.
Variable toolkit : Toolkit.

(** The list of [getArgs], cut around the entitlement phase. *)
Lemma output_around_allow (i : Inputs) :
  bakeTokens host definition toolkit i ++ commonTokens i ++ targets i
  = ("bake" :: sourceTokens i) ++ allowTokens toolkit i
      ++ tokensAfterAllow host definition toolkit i.
Proof.
  unfold bakeTokens, tokensBeforeAttestation, tokensAfterAllow.
  cbn [app]. rewrite <- !app_assoc. reflexivity.
Qed.

(** The list of [getArgs], cut around the provenance tokens. *)
Lemma output_around_provenance (i : Inputs) :
  buildx_versionSatisfies toolkit ">=0.10.0" = true ->
  bakeTokens host definition toolkit i ++ commonTokens i ++ targets i
  = tokensBeforeAttestation toolkit i
      ++ provenanceTokens host definition toolkit i
      ++ tokensAfterProvenance i.
Proof.
  intros H10. unfold bakeTokens, attestationTokens, tokensAfterProvenance.
  rewrite H10. cbn [when]. rewrite <- !app_assoc. reflexivity.
Qed.

Lemma tokensAfterAllow_with_allow (l : list string) (i : Inputs) :
  tokensAfterAllow host definition toolkit (with_allow l i)
  = tokensAfterAllow host definition toolkit i.
Proof. reflexivity. Qed.

Lemma valuesOutsideAllow_with_allow (l : list string) (i : Inputs) :
  valuesOutsideAllow host toolkit (with_allow l i)
  = valuesOutsideAllow host toolkit i.
Proof. reflexivity. Qed.

Lemma sourceTokens_in (x : string) (i : Inputs) :
  In x (sourceTokens i) -> source i = x.
Proof.
  unfold sourceTokens, when. destruct (truthy (source i)); simpl; tauto.
Qed.

(** A token written after the entitlement phase is one of the fixed
    flags or a value that does not come from [allow]. *)
Lemma tokensAfterAllow_origin (i : Inputs) :
  incl (tokensAfterAllow host definition toolkit i)
    (flagsAfterAllow ++ valuesOutsideAllow host toolkit i).
Proof.
  unfold tokensAfterAllow, callTokens, metadataTokens, attestationTokens,
    provenanceTokens, defaultProvenanceTokens, sbomTokens, commonTokens,
    valuesOutsideAllow, flagsAfterAllow.
  origin_tac.
Qed.

Lemma tokensAfterAllow_in (x : string) (i : Inputs) :
  In x (tokensAfterAllow host definition toolkit i) ->
  In x flagsAfterAllow \/ In x (valuesOutsideAllow host toolkit i).
Proof.
  intros H. apply in_app_or. now apply tokensAfterAllow_origin.
Qed.

(** A token written before the provenance tokens is a fixed token or
    a value that does not follow [--provenance]. *)
Lemma tokensBeforeAttestation_origin (i : Inputs) :
  incl (tokensBeforeAttestation toolkit i)
    (flagsAroundProvenance ++ valuesOutsideProvenance toolkit i).
Proof.
  unfold tokensBeforeAttestation, sourceTokens, allowTokens, callTokens,
    metadataTokens, valuesOutsideProvenance, flagsAroundProvenance.
  origin_tac.
Qed.

(** The same for a token written after the provenance tokens. *)
Lemma tokensAfterProvenance_origin (i : Inputs) :
  incl (tokensAfterProvenance i)
    (flagsAroundProvenance ++ valuesOutsideProvenance toolkit i).
Proof.
  unfold tokensAfterProvenance, sbomTokens, commonTokens,
    valuesOutsideProvenance, flagsAroundProvenance.
  origin_tac.
Qed.

End Origins.

(** ** Entitlements *)

Section Entitlements.

Context {BakeDefinition : Type}.
Variable host : Host BakeDefinition.
Variable definition : BakeDefinition.
Variable toolkit : Toolkit.

(** The list [getArgs] returns when it does not throw, read on the
    record [getBakeArgs] leaves. *)
Lemma getArgs_returns (i : Inputs) :
  callUnsupported toolkit i = false ->
  fst (getArgs host definition toolkit i)
  = Ok (("bake" :: sourceTokens i)
        ++ allowTokens toolkit (afterBake toolkit i)
        ++ tokensAfterAllow host definition toolkit i).
Proof.
  intros Hc. rewrite getArgs_run, Hc. cbn [fst].
  rewrite <- (commonTokens_afterBake toolkit i),
    <- (targets_afterBake toolkit i), output_around_allow.
  rewrite (afterBake_with_allow toolkit i) at 1 3.
  reflexivity.
Qed.

Lemma not_allow_before (i : Inputs) :
  ~ In "--allow" (valuesOutsideAllow host toolkit i) ->
  ~ In "--allow" ("bake" :: sourceTokens i).
Proof.
  intros H [Hb | Hs]; [discriminate Hb |].
  apply sourceTokens_in in Hs. apply H. now left.
Qed.

Lemma not_allow_after (i : Inputs) :
  ~ In "--allow" (valuesOutsideAllow host toolkit i) ->
  ~ In "--allow" (tokensAfterAllow host definition toolkit i).
Proof.
  intros H Hin. apply tokensAfterAllow_in in Hin.
  destruct Hin as [Hflag | Hval]; [| now apply H].
  unfold flagsAfterAllow in Hflag. cbn [In] in Hflag.
  repeat (destruct Hflag as [Hflag | Hflag]; [discriminate Hflag |]).
  exact Hflag.
Qed.

(** The values read after [--allow] in the list of [getArgs] are the
    entitlements of the record [getBakeArgs] leaves, when no other value
    of the record is the flag itself. *)
Lemma flagValues_allow_getArgs (i : Inputs) :
  callUnsupported toolkit i = false ->
  ~ In "--allow" (valuesOutsideAllow host toolkit i) ->
  exists out,
    fst (getArgs host definition toolkit i) = Ok out
    /\ flagValues "--allow" out
       = when (buildx_versionSatisfies toolkit ">=0.17.0")
           (allow (afterBake toolkit i)).
Proof.
  intros Hc H. eexists. split; [now apply getArgs_returns |].
  rewrite flagValues_passed_over by now apply not_allow_before.
  unfold allowTokens.
  destruct (buildx_versionSatisfies toolkit ">=0.17.0"); cbn [when app].
  - rewrite flagValues_pairs, flagValues_absent by now apply not_allow_after.
    apply app_nil_r.
  - apply flagValues_absent. now apply not_allow_after.
Qed.

End Entitlements.

(** C4, as the code has it. When the orchestrator satisfies [>=0.17.0]
    and [>=0.18.0], [getArgs] does not throw and no value of the record
    outside [allow] is the token [--allow], the values that follow
    [--allow] in the list of [getArgs] are the entitlements of the
    record and then ["fs=*"]: ["fs=*"] is among them, once more than in
    the [allow] list of the record. *)
Theorem fs_entitlement_appended {BakeDefinition : Type}
  (host : Host BakeDefinition) (definition : BakeDefinition)
  (toolkit : Toolkit) (inputs : Inputs) :
  buildx_versionSatisfies toolkit ">=0.17.0" = true ->
  buildx_versionSatisfies toolkit ">=0.18.0" = true ->
  call inputs = "" \/ buildx_versionSatisfies toolkit ">=0.16.0" = true ->
  ~ In "--allow" (valuesOutsideAllow host toolkit inputs) ->
  exists out,
    fst (getArgs host definition toolkit inputs) = Ok out
    /\ flagValues "--allow" out = allow inputs ++ ["fs=*"]
    /\ In "fs=*" (flagValues "--allow" out)
    /\ count_occ string_dec (flagValues "--allow" out) "fs=*"
       = S (count_occ string_dec (allow inputs) "fs=*").
Proof.
  intros H17 H18 Hcall Hclean.
  apply callUnsupported_false_iff in Hcall.
  destruct (flagValues_allow_getArgs host definition toolkit inputs Hcall Hclean)
    as [out [Hout Hval]].
  rewrite H17, afterBake_allow, H17, H18 in Hval. cbn [when andb] in Hval.
  exists out. rewrite Hval. repeat split; [exact Hout | |].
  - apply in_or_app. right. now left.
  - rewrite count_occ_app. cbn.
    destruct (string_dec "fs=*" "fs=*") as [_ | Hne]; [lia | now elim Hne].
Qed.

Lemma fs_entitlement_appended_witness :
  exists out,
    fst (getArgs host_public false toolkit_0_18 check_inputs) = Ok out
    /\ flagValues "--allow" out = ["network.host"; "fs=*"]
    /\ In "fs=*" (flagValues "--allow" out)
    /\ count_occ string_dec (flagValues "--allow" out) "fs=*" = 1.
Proof.
  apply (fs_entitlement_appended host_public false toolkit_0_18 check_inputs);
    [reflexivity | reflexivity | right; reflexivity |].
  cbn. intros H.
  repeat (destruct H as [H | H]; [discriminate H |]). exact H.
Defined.

(** C4 as stated fails: on a record whose [allow] list is [["fs=*"]],
    with an orchestrator that satisfies [>=0.18.0], ["fs=*"] follows
    [--allow] twice in the list of [getArgs]. *)
Lemma fs_entitlement_not_once :
  buildx_versionSatisfies toolkit_0_18 ">=0.17.0" = true
  /\ buildx_versionSatisfies toolkit_0_18 ">=0.18.0" = true
  /\ exists out,
      fst (getArgs host_public true toolkit_0_18 fs_inputs) = Ok out
      /\ flagValues "--allow" out = ["fs=*"; "fs=*"]
      /\ count_occ string_dec (flagValues "--allow" out) "fs=*" <> 1.
Proof.
  split; [reflexivity |]. split; [reflexivity |].
  eexists. split; [reflexivity |]. split; [reflexivity |].
  vm_compute. discriminate.
Qed.

(** C5, as the code has it. When the orchestrator does not satisfy
    [>=0.17.0], [getArgs] gives what it gives for the same record with
    an empty [allow] list, the same list or the same error, and leaves
    the record as it was. When it returns, its list does not contain
    [--allow], provided no value of the record outside [allow] is the
    token [--allow]. *)
Theorem allow_needs_capability {BakeDefinition : Type}
  (host : Host BakeDefinition) (definition : BakeDefinition)
  (toolkit : Toolkit) (inputs : Inputs) :
  buildx_versionSatisfies toolkit ">=0.17.0" = false ->
  fst (getArgs host definition toolkit inputs)
  = fst (getArgs host definition toolkit (with_allow [] inputs))
  /\ snd (getArgs host definition toolkit inputs) = inputs
  /\ (call inputs = "" \/ buildx_versionSatisfies toolkit ">=0.16.0" = true ->
      exists out,
        fst (getArgs host definition toolkit inputs) = Ok out
        /\ (~ In "--allow" (valuesOutsideAllow host toolkit inputs) ->
            ~ In "--allow" out)).
Proof.
  intros H17. split; [| split].
  - destruct (callUnsupported toolkit inputs) eqn:Hc.
    + rewrite !getArgs_run.
      change (callUnsupported toolkit (with_allow [] inputs))
        with (callUnsupported toolkit inputs).
      now rewrite Hc.
    + rewrite !getArgs_returns by exact Hc.
      unfold allowTokens. rewrite H17. reflexivity.
  - rewrite getArgs_run. cbn [snd]. unfold afterBake. now rewrite H17.
  - intros Hcall. apply callUnsupported_false_iff in Hcall.
    eexists. split; [now apply getArgs_returns |].
    intros Hclean. unfold allowTokens. rewrite H17. cbn [when].
    rewrite !in_app_iff. intros [Hin | [[] | Hin]].
    + now apply (not_allow_before host toolkit inputs).
    + now apply (not_allow_after host definition toolkit inputs).
Qed.

Lemma allow_needs_capability_witness :
  fst (getArgs host_public false toolkit_0_16 stray_inputs)
  = fst (getArgs host_public false toolkit_0_16 (with_allow [] stray_inputs))
  /\ snd (getArgs host_public false toolkit_0_16 stray_inputs) = stray_inputs
  /\ exists out,
      fst (getArgs host_public false toolkit_0_16 check_inputs) = Ok out
      /\ ~ In "--allow" out.
Proof.
  destruct (allow_needs_capability host_public false toolkit_0_16 stray_inputs
              eq_refl) as (Hsame & Hkeep & _).
  destruct (allow_needs_capability host_public false toolkit_0_16 check_inputs
              eq_refl) as (_ & _ & Hout).
  split; [exact Hsame |]. split; [exact Hkeep |].
  destruct (Hout (or_intror eq_refl)) as [out [Hret Hno]].
  exists out. split; [exact Hret |]. apply Hno.
  cbn. intros H.
  repeat (destruct H as [H | H]; [discriminate H |]). exact H.
Defined.

(** C5 as stated fails: with an orchestrator that does not satisfy
    [>=0.17.0] and a record whose [allow] list is not empty, the list
    of [getArgs] contains [--allow] when the [targets] carry it. *)
Lemma allow_token_from_targets :
  buildx_versionSatisfies toolkit_0_16 ">=0.17.0" = false
  /\ allow stray_inputs <> []
  /\ exists out,
      fst (getArgs host_public false toolkit_0_16 stray_inputs) = Ok out
      /\ In "--allow" out.
Proof.
  split; [reflexivity |]. split; [discriminate |].
  eexists. split; [reflexivity |].
  cbn. do 8 right. now left.
Qed.

(** ** The default attestation *)

Section Provenance.

Context {BakeDefinition : Type}.
Variable host : Host BakeDefinition.
Variable definition : BakeDefinition.
Variable toolkit : Toolkit.

Lemma not_provenance_afterBake (i : Inputs) :
  ~ In "--provenance" (valuesOutsideProvenance toolkit i) ->
  ~ In "--provenance" (valuesOutsideProvenance toolkit (afterBake toolkit i)).
Proof.
  unfold afterBake. destruct (_ && _); [| trivial].
  unfold valuesOutsideProvenance. cbn [allow_push allow source call sbom
    builder files set targets].
  rewrite !in_app_iff. cbn [In]. intros H Hin. apply H.
  destruct Hin as [Hin | [[Hin | [Hin | []]] | Hin]]; auto.
  discriminate Hin.
Qed.

Lemma not_provenance_around (l : list string) (i : Inputs) :
  incl l (flagsAroundProvenance ++ valuesOutsideProvenance toolkit i) ->
  ~ In "--provenance" (valuesOutsideProvenance toolkit i) ->
  ~ In "--provenance" l.
Proof.
  intros Hincl H Hin. apply Hincl, in_app_or in Hin.
  destruct Hin as [Hflag | Hval]; [| now apply H].
  unfold flagsAroundProvenance in Hflag. cbn [In] in Hflag.
  repeat (destruct Hflag as [Hflag | Hflag]; [discriminate Hflag |]).
  exact Hflag.
Qed.

(** The list [getArgs] returns when the attestation gate is open and
    it does not throw, cut around the provenance tokens. *)
Lemma getArgs_returns_around_provenance (i : Inputs) :
  buildx_versionSatisfies toolkit ">=0.10.0" = true ->
  callUnsupported toolkit i = false ->
  fst (getArgs host definition toolkit i)
  = Ok (tokensBeforeAttestation toolkit (afterBake toolkit i)
        ++ provenanceTokens host definition toolkit i
        ++ tokensAfterProvenance i).
Proof.
  intros H10 Hc. rewrite getArgs_run, Hc. cbn [fst].
  rewrite <- (commonTokens_afterBake toolkit i),
    <- (targets_afterBake toolkit i), output_around_provenance by exact H10.
  rewrite (afterBake_with_allow toolkit i) at 2 3.
  reflexivity.
Qed.

End Provenance.

(** On a record with an empty [provenance], an orchestrator that
    satisfies [>=0.10.0] and no throw, the list of [getArgs] is the
    tokens written before the attestation phase, then the tokens
    [emitted] for the default attestation, then the [--sbom], common
    and target tokens, [emitted] being read on what
    [noDefaultAttestations] returns. *)
Lemma default_provenance_emitted {BakeDefinition : Type}
  (host : Host BakeDefinition) (definition : BakeDefinition)
  (toolkit : Toolkit) (inputs : Inputs) :
  provenance inputs = "" ->
  buildx_versionSatisfies toolkit ">=0.10.0" = true ->
  call inputs = "" \/ buildx_versionSatisfies toolkit ">=0.16.0" = true ->
  exists out emitted,
    fst (getArgs host definition toolkit inputs) = Ok out
    /\ out = tokensBeforeAttestation toolkit
               (snd (getArgs host definition toolkit inputs))
             ++ emitted ++ tokensAfterProvenance inputs
    /\ (emitted <> []
        <-> noDefaultAttestations host = false
            /\ buildkit_versionSatisfies toolkit (builder inputs) ">=0.11.0"
               = true
            /\ Bake_hasDockerExporter host definition (load inputs) = false)
    /\ (emitted <> [] -> repository_private host = Some true ->
        emitted
        = ["--provenance";
           Build_resolveProvenanceAttrs host "mode=min,inline-only=true"])
    /\ (emitted <> [] -> repository_private host <> Some true ->
        emitted
        = ["--provenance"; Build_resolveProvenanceAttrs host "mode=max"])
    /\ (noDefaultAttestations host = true -> emitted = [])
    /\ (~ In "--provenance" (valuesOutsideProvenance toolkit inputs) ->
        flagValues "--provenance" out = tl emitted
        /\ (In "--provenance" out <-> emitted <> [])).
Proof.
  intros Hprov H10 Hcall.
  apply callUnsupported_false_iff in Hcall.
  exists (tokensBeforeAttestation toolkit (afterBake toolkit inputs)
          ++ defaultProvenanceTokens host definition toolkit inputs
          ++ tokensAfterProvenance inputs),
    (defaultProvenanceTokens host definition toolkit inputs).
  assert (Hsnd : snd (getArgs host definition toolkit inputs)
                 = afterBake toolkit inputs)
    by now rewrite getArgs_run.
  assert (Hgate : defaultProvenanceGate host definition toolkit inputs = true
                  <-> noDefaultAttestations host = false
                      /\ buildkit_versionSatisfies toolkit (builder inputs)
                           ">=0.11.0" = true
                      /\ Bake_hasDockerExporter host definition (load inputs)
                         = false).
  { unfold defaultProvenanceGate.
    rewrite !andb_true_iff, !negb_true_iff. tauto. }
  split.
  { rewrite getArgs_returns_around_provenance by assumption.
    unfold provenanceTokens.
    apply truthy_false_iff in Hprov. now rewrite Hprov. }
  split; [now rewrite Hsnd |].
  unfold defaultProvenanceTokens, defaultProvenanceAttrs.
  destruct (defaultProvenanceGate host definition toolkit inputs) eqn:G;
    cbn [when tl].
  - split; [split; [intros _; now apply Hgate | discriminate] |].
    split; [intros _ Hp; now rewrite Hp |].
    split.
    { intros _ Hp.
      destruct (repository_private host) as [[|]|]; cbn [nullish];
        [now elim Hp | reflexivity | reflexivity]. }
    split.
    { intros Hopt. apply proj1 in Hgate.
      destruct (Hgate eq_refl) as [Hno _]. congruence. }
    intros Hclean.
    assert (Hpre : ~ In "--provenance"
                     (tokensBeforeAttestation toolkit
                        (afterBake toolkit inputs))).
    { apply (not_provenance_around toolkit _ (afterBake toolkit inputs)).
      - apply tokensBeforeAttestation_origin.
      - now apply not_provenance_afterBake. }
    assert (Hpost : ~ In "--provenance" (tokensAfterProvenance inputs)).
    { apply (not_provenance_around toolkit _ inputs);
        [apply tokensAfterProvenance_origin | exact Hclean]. }
    split.
    + rewrite flagValues_passed_over by exact Hpre.
      cbn [app]. rewrite flagValues_take, flagValues_absent by exact Hpost.
      reflexivity.
    + split; [discriminate |]. intros _.
      apply in_or_app. right. now left.
  - split.
    { split; [intros H; now elim H |].
      intros H. apply Hgate in H. discriminate H. }
    split; [intros H; now elim H |].
    split; [intros H; now elim H |].
    split; [reflexivity |].
    intros Hclean. cbn [app].
    assert (Hout : ~ In "--provenance"
                     (tokensBeforeAttestation toolkit
                        (afterBake toolkit inputs)
                      ++ tokensAfterProvenance inputs)).
    { rewrite in_app_iff. intros [Hin | Hin]; revert Hin.
      - apply (not_provenance_around toolkit _ (afterBake toolkit inputs)).
        + apply tokensBeforeAttestation_origin.
        + now apply not_provenance_afterBake.
      - apply (not_provenance_around toolkit _ inputs);
          [apply tokensAfterProvenance_origin | exact Hclean]. }
    split; [now apply flagValues_absent |].
    split; [intros H; now elim Hout | intros H; now elim H].
Qed.

(** What [noDefaultAttestations] returns, read on the variable of the
    environment and on [Util.parseBool]. *)
Lemma noDefaultAttestations_true_iff {BakeDefinition : Type}
  (host : Host BakeDefinition) :
  noDefaultAttestations host = true
  <-> exists v,
        env_BUILDX_NO_DEFAULT_ATTESTATIONS host = Some v
        /\ v <> "" /\ Util_parseBool host v = true.
Proof.
  unfold noDefaultAttestations.
  destruct (env_BUILDX_NO_DEFAULT_ATTESTATIONS host) as [v |].
  - destruct (truthy v) eqn:Hv.
    + apply truthy_true_iff in Hv. split.
      * intros H. now exists v.
      * intros [w [[= <-] [_ H]]]. exact H.
    + apply truthy_false_iff in Hv. split; [discriminate |].
      intros [w [[= <-] [H _]]]. contradiction.
  - split; [discriminate |]. intros [w [H _]]. discriminate H.
Qed.

Lemma noDefaultAttestations_false_iff {BakeDefinition : Type}
  (host : Host BakeDefinition) :
  noDefaultAttestations host = false
  <-> forall v,
        env_BUILDX_NO_DEFAULT_ATTESTATIONS host = Some v ->
        v <> "" -> Util_parseBool host v = false.
Proof.
  split.
  - intros H v Hv Hne.
    destruct (Util_parseBool host v) eqn:Hp; [| reflexivity].
    assert (Ht : noDefaultAttestations host = true)
      by (apply noDefaultAttestations_true_iff; now exists v).
    congruence.
  - intros H. destruct (noDefaultAttestations host) eqn:Hn; [| reflexivity].
    apply noDefaultAttestations_true_iff in Hn.
    destruct Hn as [v [Hv [Hne Hp]]]. rewrite (H v Hv Hne) in Hp.
    discriminate Hp.
Qed.

(** C6, as the code has it. On a record with an empty [provenance], an
    orchestrator that satisfies [>=0.10.0] and a call of [getArgs] that
    does not throw, the list of [getArgs] is the tokens written before
    the attestation phase, then the tokens [emitted] for the default
    attestation, then the [--sbom], common and target tokens.
    [emitted] is not empty if and only if the variable
    [BUILDX_NO_DEFAULT_ATTESTATIONS] is undefined, empty or read as
    false by [Util.parseBool], the backend satisfies [>=0.11.0] and the
    exporter predicate does not hold for the definition and the [load]
    of the record; it is then [--provenance] with the resolved
    [mode=min,inline-only=true] on a private repository, and with the
    resolved [mode=max] on a public one or one of unknown visibility;
    it is empty whenever the variable is not empty and read as true,
    whatever the visibility. When no other value of the record is the
    token [--provenance], this can be read on the list: [--provenance]
    is in it exactly when [emitted] is not empty, and its value is the
    one of [emitted]. *)
Theorem default_provenance_policy {BakeDefinition : Type}
  (host : Host BakeDefinition) (definition : BakeDefinition)
  (toolkit : Toolkit) (inputs : Inputs) :
  provenance inputs = "" ->
  buildx_versionSatisfies toolkit ">=0.10.0" = true ->
  call inputs = "" \/ buildx_versionSatisfies toolkit ">=0.16.0" = true ->
  exists out emitted,
    fst (getArgs host definition toolkit inputs) = Ok out
    /\ out = tokensBeforeAttestation toolkit
               (snd (getArgs host definition toolkit inputs))
             ++ emitted ++ tokensAfterProvenance inputs
    /\ (emitted <> []
        <-> (forall v,
                env_BUILDX_NO_DEFAULT_ATTESTATIONS host = Some v ->
                v <> "" -> Util_parseBool host v = false)
            /\ buildkit_versionSatisfies toolkit (builder inputs) ">=0.11.0"
               = true
            /\ Bake_hasDockerExporter host definition (load inputs) = false)
    /\ (emitted <> [] -> repository_private host = Some true ->
        emitted
        = ["--provenance";
           Build_resolveProvenanceAttrs host "mode=min,inline-only=true"])
    /\ (emitted <> [] -> repository_private host <> Some true ->
        emitted
        = ["--provenance"; Build_resolveProvenanceAttrs host "mode=max"])
    /\ (forall v,
          env_BUILDX_NO_DEFAULT_ATTESTATIONS host = Some v ->
          v <> "" -> Util_parseBool host v = true -> emitted = [])
    /\ (~ In "--provenance" (valuesOutsideProvenance toolkit inputs) ->
        flagValues "--provenance" out = tl emitted
        /\ (In "--provenance" out <-> emitted <> [])).
Proof.
  intros Hprov H10 Hcall.
  destruct (default_provenance_emitted host definition toolkit inputs
              Hprov H10 Hcall)
    as (out & emitted & Hout & Hcut & Hiff & Hmin & Hmax & Hopt & Hread).
  exists out, emitted.
  split; [exact Hout |]. split; [exact Hcut |].
  split; [now rewrite Hiff, noDefaultAttestations_false_iff |].
  split; [exact Hmin |]. split; [exact Hmax |]. split; [| exact Hread].
  intros v Hv Hne Hp. apply Hopt, noDefaultAttestations_true_iff.
  now exists v.
Qed.

Lemma default_provenance_policy_witness :
  (exists out,
     fst (getArgs host_private false toolkit_0_18 push_inputs) = Ok out
     /\ flagValues "--provenance" out
        = ["mode=min,inline-only=true,builder-id=ci"]
     /\ In "--provenance" out)
  /\ exists out,
      fst (getArgs host_optout false toolkit_0_18 push_inputs) = Ok out
      /\ flagValues "--provenance" out = []
      /\ ~ In "--provenance" out.
Proof.
  assert (Hclean : ~ In "--provenance"
                     (valuesOutsideProvenance toolkit_0_18 push_inputs)).
  { cbn. intros H.
    repeat (destruct H as [H | H]; [discriminate H |]). exact H. }
  split.
  - destruct (default_provenance_policy host_private false toolkit_0_18
                push_inputs eq_refl eq_refl (or_introl eq_refl))
      as (out & emitted & Hout & _ & Hiff & Hmin & _ & _ & Hread).
    assert (Hne : emitted <> []).
    { apply Hiff. split; [| split; reflexivity].
      intros v Hv. discriminate Hv. }
    destruct (Hread Hclean) as [Hval Hin].
    exists out. split; [exact Hout |]. split.
    + rewrite Hval, (Hmin Hne eq_refl). reflexivity.
    + now apply Hin.
  - destruct (default_provenance_policy host_optout false toolkit_0_18
                push_inputs eq_refl eq_refl (or_introl eq_refl))
      as (out & emitted & Hout & _ & _ & _ & _ & Hopt & Hread).
    assert (Hnone : emitted = [])
      by (apply (Hopt "true"); [reflexivity | discriminate | reflexivity]).
    destruct (Hread Hclean) as [Hval Hin].
    exists out. split; [exact Hout |]. split.
    + rewrite Hval, Hnone. reflexivity.
    + intros H. apply Hin in H. now apply H.
Defined.

(** C6 as stated fails: on a record with an empty [provenance] and a
    call mode, with an orchestrator that satisfies [>=0.10.0] but not
    [>=0.16.0], the opt-out variable undefined, a backend that
    satisfies [>=0.11.0] and an exporter predicate that does not hold,
    no default attestation is emitted: [getArgs] throws and returns no
    list. *)
Lemma default_provenance_lost_on_throw :
  provenance check_inputs = ""
  /\ buildx_versionSatisfies toolkit_0_12 ">=0.10.0" = true
  /\ env_BUILDX_NO_DEFAULT_ATTESTATIONS host_public = None
  /\ buildkit_versionSatisfies toolkit_0_12 (builder check_inputs) ">=0.11.0"
     = true
  /\ Bake_hasDockerExporter host_public false (load check_inputs) = false
  /\ fst (getArgs host_public false toolkit_0_12 check_inputs)
     = Throw "Buildx >= 0.16.0 is required to use the call flag."
  /\ forall out,
      fst (getArgs host_public false toolkit_0_12 check_inputs) <> Ok out.
Proof.
  repeat (split; [reflexivity |]). discriminate.
Qed.

(** ** Resolution of the source *)

Lemma afterBake_with_source (toolkit : Toolkit) (s : string) (i : Inputs) :
  afterBake toolkit (with_source s i) = with_source s (afterBake toolkit i).
Proof. unfold afterBake. now destruct (_ && _). Qed.

(** C7. When the template renders to [rendered], the value resolved is
    [rendered], or the git context when [rendered] is empty. If the
    value resolved is ["."], [getSourceInput] returns the empty string,
    and [getArgs] on a record with that source returns [bake] followed
    at once by the tokens [rest] that follow the source of any record
    with a source: no token is written for the source. If [rendered] is
    empty, [getSourceInput] returns the git context, or the empty string
    when the git context is ["."]. *)
Theorem source_resolution (runner : Runner) (name rendered : string) :
  handlebars_render runner (core_getInput runner name)
    (Context_gitContext runner) = Ok rendered ->
  let resolved :=
    if rendered =? "" then Context_gitContext runner else rendered in
  (resolved = "." -> getSourceInput runner name = Ok "")
  /\ (resolved <> "." -> getSourceInput runner name = Ok resolved)
  /\ (rendered = "" ->
      getSourceInput runner name
      = Ok (if Context_gitContext runner =? "." then ""
            else Context_gitContext runner))
  /\ (forall (BakeDefinition : Type) (host : Host BakeDefinition)
        (definition : BakeDefinition) (toolkit : Toolkit) (inputs : Inputs),
        resolved = "." ->
        getSourceInput runner name = Ok (source inputs) ->
        call inputs = "" \/ buildx_versionSatisfies toolkit ">=0.16.0" = true ->
        exists rest,
          fst (getArgs host definition toolkit inputs) = Ok ("bake" :: rest)
          /\ forall s, s <> "" ->
               fst (getArgs host definition toolkit (with_source s inputs))
               = Ok ("bake" :: s :: rest)).
Proof.
  intros Hrender resolved.
  assert (Hget : getSourceInput runner name
                 = Ok (if resolved =? "." then "" else resolved)).
  { unfold getSourceInput. rewrite Hrender. unfold truthy.
    rewrite negb_involutive. reflexivity. }
  assert (Hdot : resolved = "." -> getSourceInput runner name = Ok "").
  { intros H. rewrite Hget. apply String.eqb_eq in H. now rewrite H. }
  split; [exact Hdot |]. split; [| split].
  - intros H. rewrite Hget. apply String.eqb_neq in H. now rewrite H.
  - intros H. rewrite Hget. unfold resolved.
    apply String.eqb_eq in H. now rewrite H.
  - intros BakeDefinition host definition toolkit inputs Hres Hsrc Hcall.
    rewrite (Hdot Hres) in Hsrc. injection Hsrc as Hsrc.
    apply callUnsupported_false_iff in Hcall.
    exists (allowTokens toolkit (afterBake toolkit inputs)
            ++ tokensAfterAllow host definition toolkit inputs).
    split.
    + rewrite getArgs_returns by exact Hcall.
      unfold sourceTokens. now rewrite <- Hsrc.
    + intros s Hs. rewrite getArgs_returns by exact Hcall.
      rewrite afterBake_with_source.
      unfold sourceTokens. cbn [with_source source].
      apply truthy_true_iff in Hs. rewrite Hs. reflexivity.
Qed.

Lemma source_resolution_witness :
  getSourceInput (runner_with "." "https://github.com/o/r.git#main") "source"
  = Ok ""
  /\ exists rest,
      fst (getArgs host_public true toolkit_0_18 (example_inputs "."))
      = Ok ("bake" :: rest)
      /\ forall s, s <> "" ->
           fst (getArgs host_public true toolkit_0_18
                  (with_source s (example_inputs ".")))
           = Ok ("bake" :: s :: rest).
Proof.
  destruct (source_resolution
              (runner_with "." "https://github.com/o/r.git#main")
              "source" "." eq_refl)
    as (Hdot & _ & _ & Hargs).
  split; [exact (Hdot eq_refl) |].
  exact (Hargs bool host_public true toolkit_0_18 (example_inputs ".")
           eq_refl eq_refl (or_introl eq_refl)).
Defined.

(** C8, as the code has it. When the renderer throws, [getSourceInput]
    throws the same error: it returns no source, and the git context is
    not substituted. *)
Theorem source_render_failure_propagates (runner : Runner)
  (name e : string) :
  handlebars_render runner (core_getInput runner name)
    (Context_gitContext runner) = Throw e ->
  getSourceInput runner name = Throw e
  /\ forall s, getSourceInput runner name <> Ok s.
Proof.
  intros H. unfold getSourceInput. rewrite H. split; [reflexivity | discriminate].
Qed.

Lemma source_render_failure_propagates_witness :
  getSourceInput (runner_with "{{" "https://github.com/o/r.git#main") "source"
  = Throw "Parse error"
  /\ forall s,
      getSourceInput (runner_with "{{" "https://github.com/o/r.git#main")
        "source" <> Ok s.
Proof.
  apply (source_render_failure_propagates
           (runner_with "{{" "https://github.com/o/r.git#main") "source"
           "Parse error").
  reflexivity.
Defined.

(** C8 as stated fails: on a template the renderer rejects,
    [getSourceInput] does not return the git context, it throws. *)
Lemma source_render_failure_not_swallowed :
  handlebars_render (runner_with "{{" "https://github.com/o/r.git#main")
    (core_getInput (runner_with "{{" "https://github.com/o/r.git#main")
       "source")
    (Context_gitContext (runner_with "{{" "https://github.com/o/r.git#main"))
  = Throw "Parse error"
  /\ getSourceInput (runner_with "{{" "https://github.com/o/r.git#main")
       "source"
     <> Ok "https://github.com/o/r.git#main"
  /\ getSourceInput (runner_with "{{" "https://github.com/o/r.git#main")
       "source"
     = Throw "Parse error".
Proof.
  split; [reflexivity |]. split; [discriminate | reflexivity].
Qed.

(** ** What [getArgs] does to the record *)

(** The record [getArgs] leaves is the one [getBakeArgs] leaves. *)
Lemma getArgs_leaves {BakeDefinition : Type} (host : Host BakeDefinition)
  (definition : BakeDefinition) (toolkit : Toolkit) (i : Inputs) :
  snd (getArgs host definition toolkit i) = afterBake toolkit i.
Proof. now rewrite getArgs_run. Qed.

(** A second call on the record the first one leaves reads one more
    ["fs=*"], so the two lists differ. *)
Lemma getArgs_twice {BakeDefinition : Type} (host : Host BakeDefinition)
  (definition : BakeDefinition) (toolkit : Toolkit) (i : Inputs) :
  buildx_versionSatisfies toolkit ">=0.17.0" = true ->
  buildx_versionSatisfies toolkit ">=0.18.0" = true ->
  call i = "" \/ buildx_versionSatisfies toolkit ">=0.16.0" = true ->
  ~ In "--allow" (valuesOutsideAllow host toolkit i) ->
  exists out1 out2,
    fst (getArgs host definition toolkit i) = Ok out1
    /\ fst (getArgs host definition toolkit
              (snd (getArgs host definition toolkit i))) = Ok out2
    /\ flagValues "--allow" out1 = allow i ++ ["fs=*"]
    /\ flagValues "--allow" out2 = allow i ++ ["fs=*"; "fs=*"]
    /\ out1 <> out2.
Proof.
  intros H17 H18 Hcall Hclean.
  apply callUnsupported_false_iff in Hcall.
  destruct (flagValues_allow_getArgs host definition toolkit i Hcall Hclean)
    as [out1 [Hout1 Hval1]].
  rewrite getArgs_leaves.
  assert (Hcall' : callUnsupported toolkit (afterBake toolkit i) = false)
    by now rewrite afterBake_with_allow.
  assert (Hclean' : ~ In "--allow"
                      (valuesOutsideAllow host toolkit (afterBake toolkit i)))
    by now rewrite afterBake_with_allow.
  destruct (flagValues_allow_getArgs host definition toolkit _ Hcall' Hclean')
    as [out2 [Hout2 Hval2]].
  rewrite H17, afterBake_allow, H17, H18 in Hval1.
  rewrite H17, !afterBake_allow, H17, H18 in Hval2.
  cbn [when andb] in Hval1, Hval2. rewrite <- app_assoc in Hval2.
  exists out1, out2. repeat split; try assumption.
  intros Heq. rewrite Heq, Hval2 in Hval1.
  apply (f_equal (@length string)) in Hval1.
  rewrite !length_app in Hval1. cbn in Hval1. lia.
Qed.

(** C9. There is a record on which two calls of [getArgs] in a row, the
    second on the record the first one leaves, with an orchestrator
    that satisfies [>=0.18.0], return different lists: ["fs=*"] follows
    [--allow] once in the first and twice in the second, because the
    first call has left it in the [allow] list of the record. *)
Theorem getArgs_not_idempotent :
  exists (host : Host bool) (definition : bool) (toolkit : Toolkit)
    (inputs after1 after2 : Inputs) (out1 out2 : list string),
    buildx_versionSatisfies toolkit ">=0.18.0" = true
    /\ getArgs host definition toolkit inputs = (Ok out1, after1)
    /\ getArgs host definition toolkit after1 = (Ok out2, after2)
    /\ allow inputs = []
    /\ allow after1 = ["fs=*"]
    /\ count_occ string_dec (flagValues "--allow" out1) "fs=*" = 1
    /\ count_occ string_dec (flagValues "--allow" out2) "fs=*" = 2
    /\ out1 <> out2.
Proof.
  exists host_public, true, toolkit_0_18, (example_inputs "."),
    (snd (getArgs host_public true toolkit_0_18 (example_inputs "."))),
    (snd (getArgs host_public true toolkit_0_18
            (snd (getArgs host_public true toolkit_0_18
                    (example_inputs "."))))).
  eexists. eexists.
  split; [reflexivity |]. split; [reflexivity |]. split; [reflexivity |].
  split; [reflexivity |]. split; [reflexivity |]. split; [reflexivity |].
  split; [reflexivity | discriminate].
Qed.

(** C10. For an orchestrator on which [>=0.18.0] entails [>=0.17.0],
    [getArgs], whether it returns or throws, leaves every field of the
    record as it was but [allow]; [allow] is left as it was when the
    orchestrator does not satisfy [>=0.18.0], and with ["fs=*"] pushed
    at its end when it does. *)
Theorem getArgs_frame {BakeDefinition : Type} (host : Host BakeDefinition)
  (definition : BakeDefinition) (toolkit : Toolkit) (inputs : Inputs) :
  (buildx_versionSatisfies toolkit ">=0.18.0" = true ->
   buildx_versionSatisfies toolkit ">=0.17.0" = true) ->
  let after := snd (getArgs host definition toolkit inputs) in
  (builder after = builder inputs
   /\ workdir after = workdir inputs
   /\ source after = source inputs
   /\ call after = call inputs
   /\ files after = files inputs
   /\ no_cache after = no_cache inputs
   /\ pull after = pull inputs
   /\ load after = load inputs
   /\ provenance after = provenance inputs
   /\ push after = push inputs
   /\ sbom after = sbom inputs
   /\ set after = set inputs
   /\ targets after = targets inputs
   /\ github_token after = github_token inputs)
  /\ (buildx_versionSatisfies toolkit ">=0.18.0" = true ->
      allow after = allow inputs ++ ["fs=*"])
  /\ (buildx_versionSatisfies toolkit ">=0.18.0" = false ->
      allow after = allow inputs)
  /\ (allow after <> allow inputs
      <-> buildx_versionSatisfies toolkit ">=0.18.0" = true).
Proof.
  intros Hmono after. unfold after. rewrite getArgs_leaves.
  split.
  { rewrite afterBake_with_allow. repeat split. }
  rewrite afterBake_allow.
  destruct (buildx_versionSatisfies toolkit ">=0.18.0") eqn:H18.
  - rewrite (Hmono eq_refl). cbn [andb when].
    split; [reflexivity |]. split; [discriminate |].
    split; [reflexivity |]. intros _ Heq.
    apply (f_equal (@length string)) in Heq.
    rewrite length_app in Heq. cbn in Heq. lia.
  - rewrite andb_false_r. cbn [when]. rewrite app_nil_r.
    split; [discriminate |]. split; [reflexivity |].
    split; [intros H; now elim H | discriminate].
Qed.

Lemma getArgs_frame_witness :
  targets (snd (getArgs host_public false toolkit_0_18 check_inputs))
  = ["app"]
  /\ allow (snd (getArgs host_public false toolkit_0_18 check_inputs))
     = ["network.host"; "fs=*"]
  /\ allow (snd (getArgs host_public false toolkit_0_12 check_inputs))
     = ["network.host"].
Proof.
  destruct (getArgs_frame host_public false toolkit_0_18 check_inputs
              (fun _ => eq_refl))
    as ((_ & _ & _ & _ & _ & _ & _ & _ & _ & _ & _ & _ & Ht & _) & Hpush & _).
  destruct (getArgs_frame host_public false toolkit_0_12 check_inputs
              (fun H => H))
    as (_ & _ & Hkeep & _).
  split; [exact Ht |]. split; [exact (Hpush eq_refl) | exact (Hkeep eq_refl)].
Defined.

(** ** The list of [getArgs] read as command-line arguments *)

Lemma renderAll_app (l1 l2 : list arg) :
  renderAll (l1 ++ l2) = renderAll l1 ++ renderAll l2.
Proof. apply flat_map_app. Qed.

Lemma renderAll_whenA (b : bool) (l : list arg) :
  renderAll (whenA b l) = when b (renderAll l).
Proof. now destruct b. Qed.

Lemma renderAll_opts (flag : string) (values : list string) :
  renderAll (opts flag values) = pairs flag values.
Proof.
  unfold renderAll, opts, pairs.
  induction values as [|v values IH]; [reflexivity |].
  cbn. now rewrite IH.
Qed.

Lemma renderAll_positional (values : list string) :
  renderAll (map Pos values) = values.
Proof.
  unfold renderAll.
  induction values as [|v values IH]; [reflexivity |].
  cbn. now rewrite IH.
Qed.

Lemma optValues_app (flag : string) (l1 l2 : list arg) :
  optValues flag (l1 ++ l2) = optValues flag l1 ++ optValues flag l2.
Proof. apply flat_map_app. Qed.

Lemma optValues_whenA (flag : string) (b : bool) (l : list arg) :
  optValues flag (whenA b l) = when b (optValues flag l).
Proof. now destruct b. Qed.

Lemma optValues_opts (flag f : string) (values : list string) :
  optValues flag (opts f values) = if f =? flag then values else [].
Proof.
  unfold optValues, opts.
  induction values as [|v values IH]; cbn.
  - now destruct (f =? flag).
  - rewrite IH. now destruct (f =? flag).
Qed.

Lemma optValues_positional (flag : string) (values : list string) :
  optValues flag (map Pos values) = [].
Proof.
  unfold optValues. induction values as [|v values IH]; [reflexivity |].
  cbn. exact IH.
Qed.

Lemma switchSet_app (flag : string) (l1 l2 : list arg) :
  switchSet flag (l1 ++ l2) = switchSet flag l1 || switchSet flag l2.
Proof. apply existsb_app. Qed.

Lemma switchSet_whenA (flag : string) (b : bool) (l : list arg) :
  switchSet flag (whenA b l) = b && switchSet flag l.
Proof. now destruct b. Qed.

Lemma switchSet_opts (flag f : string) (values : list string) :
  switchSet flag (opts f values) = false.
Proof.
  unfold switchSet, opts. induction values as [|v values IH]; [reflexivity |].
  cbn. exact IH.
Qed.

Lemma switchSet_positional (flag : string) (values : list string) :
  switchSet flag (map Pos values) = false.
Proof.
  unfold switchSet. induction values as [|v values IH]; [reflexivity |].
  cbn. exact IH.
Qed.

(** Reading the values of [flag] in the tokens of clean arguments gives
    the values the arguments give to [flag]. *)
Lemma flagValues_renderAll (flag : string) (args : list arg) :
  Forall (clean flag) args ->
  flagValues flag (renderAll args) = optValues flag args.
Proof.
  induction 1 as [|a args Ha _ IH]; [reflexivity |].
  change (renderAll (a :: args)) with (render a ++ renderAll args).
  change (a :: args) with ([a] ++ args). rewrite optValues_app.
  destruct a as [v | f | f v]; cbn [render app clean] in *.
  - now rewrite flagValues_skip.
  - now rewrite flagValues_skip.
  - destruct (string_dec f flag) as [-> | Hf].
    + rewrite flagValues_take, IH. cbn. now rewrite String.eqb_refl.
    + destruct Ha as [Ha | Ha]; [contradiction |].
      rewrite !flagValues_skip by assumption. cbn.
      apply String.eqb_neq in Hf. now rewrite Hf.
Qed.

(** The switch [flag] is among the tokens of clean arguments exactly
    when the arguments set it. *)
Lemma in_renderAll_switch (flag : string) (args : list arg) :
  Forall (cleanSwitch flag) args ->
  In flag (renderAll args) <-> switchSet flag args = true.
Proof.
  induction 1 as [|a args Ha _ IH]; [cbn; split; [tauto | discriminate] |].
  change (renderAll (a :: args)) with (render a ++ renderAll args).
  change (a :: args) with ([a] ++ args). rewrite switchSet_app.
  rewrite in_app_iff, orb_true_iff, IH.
  destruct a as [v | f | f v]; cbn in *.
  - intuition congruence.
  - rewrite orb_false_r, String.eqb_eq. intuition congruence.
  - intuition congruence.
Qed.

Lemma clean_of_wellFormed (flag : string) (values : list string) (a : arg) :
  ~ In flag ("bake" :: values) ->
  ~ In flag switchFlags ->
  wellFormed values a -> clean flag a.
Proof.
  intros Hv Hs. destruct a as [v | f | f v]; cbn [wellFormed clean].
  - intros H ->. now apply Hv.
  - intros H ->. now apply Hs.
  - intros [_ H]. right. intros ->. apply Hv. now right.
Qed.

Lemma cleanSwitch_of_wellFormed (flag : string) (values : list string)
  (a : arg) :
  ~ In flag ("bake" :: values) ->
  ~ In flag optionFlags ->
  wellFormed values a -> cleanSwitch flag a.
Proof.
  intros Hv Ho. destruct a as [v | f | f v]; cbn [wellFormed cleanSwitch].
  - intros H ->. now apply Hv.
  - trivial.
  - intros [Hf H]. split; intros ->; [now apply Ho | apply Hv; now right].
Qed.

Lemma Forall_whenA (P : arg -> Prop) (b : bool) (l : list arg) :
  Forall P l -> Forall P (whenA b l).
Proof. destruct b; [trivial | constructor]. Qed.

Lemma Forall_opts (P : arg -> Prop) (flag : string) (values : list string) :
  (forall v, In v values -> P (Opt flag v)) -> Forall P (opts flag values).
Proof.
  intros H. unfold opts. apply Forall_forall. intros a Ha.
  apply in_map_iff in Ha. destruct Ha as [v [<- Hv]]. now apply H.
Qed.

Lemma Forall_positional (P : arg -> Prop) (values : list string) :
  (forall v, In v values -> P (Pos v)) -> Forall P (map Pos values).
Proof.
  intros H. apply Forall_forall. intros a Ha.
  apply in_map_iff in Ha. destruct Ha as [v [<- Hv]]. now apply H.
Qed.

Lemma incl_if_Forall (P : arg -> Prop) (b : bool) (l1 l2 : list arg) :
  Forall P l1 -> Forall P l2 -> Forall P (if b then l1 else l2).
Proof. now destruct b. Qed.

(** Splits a [Forall] along the phases of an argument list. *)
Ltac wellFormed_tac :=
  repeat match goal with
    | |- Forall _ [] => constructor
    | |- Forall _ (_ ++ _) => apply Forall_app; split
    | |- Forall _ (whenA _ _) => apply Forall_whenA
    | |- Forall _ (if _ then _ else _) => apply incl_if_Forall
    | |- Forall _ (opts _ _) =>
        apply Forall_opts; let v := fresh "v" in let Hv := fresh "Hv" in
                           intros v Hv
    | |- Forall _ (map Pos _) =>
        apply Forall_positional; let v := fresh "v" in let Hv := fresh "Hv" in
                                 intros v Hv
    | |- Forall _ (_ :: _) => constructor
    end.

Section ArgumentsOfGetArgs.

Context {BakeDefinition : Type}.
Variable host : Host BakeDefinition.
Variable definition : BakeDefinition.
Variable toolkit : Toolkit.

(** The tokens of the arguments are the list of the phases. *)
Lemma renderAll_allArgs (i : Inputs) :
  renderAll (allArgs host definition toolkit i)
  = bakeTokens host definition toolkit i ++ commonTokens i ++ targets i.
Proof.
  unfold allArgs, bakeArgs, commonArgs, provenanceArgs, bakeTokens,
    tokensBeforeAttestation, attestationTokens, provenanceTokens,
    defaultProvenanceTokens, sbomTokens, metadataTokens, callTokens,
    allowTokens, sourceTokens, commonTokens.
  change (Pos "bake" :: ?l) with ([Pos "bake"] ++ l).
  rewrite !renderAll_app, renderAll_positional.
  rewrite !renderAll_whenA, !renderAll_opts, !renderAll_app, !renderAll_whenA.
  destruct (truthy (provenance i)); rewrite ?renderAll_whenA; cbn [renderAll
    flat_map render app];
    repeat (progress (rewrite <- ?app_assoc; cbn [app])); reflexivity.
Qed.

(** The arguments are written with the values of the record. *)
Lemma allArgs_wellFormed (i : Inputs) :
  Forall (wellFormed (fieldValues host toolkit i))
    (allArgs host definition toolkit i).
Proof.
  unfold allArgs, bakeArgs, commonArgs, provenanceArgs, fieldValues,
    valuesOutsideAllow.
  wellFormed_tac; cbn [wellFormed]; unfold optionFlags, switchFlags;
    try split; cbn [In]; find_member.
Qed.

Lemma fieldValues_afterBake (i : Inputs) (x : string) :
  In x (fieldValues host toolkit (afterBake toolkit i)) ->
  x = "fs=*" \/ In x (fieldValues host toolkit i).
Proof.
  unfold afterBake. destruct (_ && _); [| auto].
  unfold fieldValues.
  change (valuesOutsideAllow host toolkit (allow_push "fs=*" i))
    with (valuesOutsideAllow host toolkit i).
  cbn [allow_push allow]. rewrite !in_app_iff. cbn [In].
  intros [[H | [H | []]] | H]; auto.
Qed.

(** The list [getArgs] returns when it does not throw is the tokens of
    the arguments, read on the record [getBakeArgs] leaves. *)
Lemma getArgs_renders (i : Inputs) :
  callUnsupported toolkit i = false ->
  fst (getArgs host definition toolkit i)
  = Ok (renderAll (allArgs host definition toolkit (afterBake toolkit i))).
Proof.
  intros Hc. rewrite getArgs_run, Hc, renderAll_allArgs. cbn [fst].
  now rewrite commonTokens_afterBake, targets_afterBake.
Qed.

(** Reading back a flag that takes a value. *)
Lemma getArgs_read_option (flag : string) (i : Inputs) :
  callUnsupported toolkit i = false ->
  ~ In flag (fieldValues host toolkit i) ->
  ~ In flag ("bake" :: "fs=*" :: switchFlags) ->
  exists out,
    fst (getArgs host definition toolkit i) = Ok out
    /\ flagValues flag out
       = optValues flag (allArgs host definition toolkit (afterBake toolkit i)).
Proof.
  intros Hc Hv Hr. eexists. split; [now apply getArgs_renders |].
  apply flagValues_renderAll.
  eapply Forall_impl; [| apply allArgs_wellFormed].
  intros a. apply clean_of_wellFormed.
  - intros [H | H].
    + apply Hr. now left.
    + apply fieldValues_afterBake in H. destruct H as [-> | H]; auto.
      apply Hr. right. now left.
  - intros H. apply Hr. now do 2 right.
Qed.

(** Looking for a switch. *)
Lemma getArgs_read_switch (flag : string) (i : Inputs) :
  callUnsupported toolkit i = false ->
  ~ In flag (fieldValues host toolkit i) ->
  ~ In flag ("bake" :: "fs=*" :: optionFlags) ->
  exists out,
    fst (getArgs host definition toolkit i) = Ok out
    /\ (In flag out
        <-> switchSet flag (commonArgs (afterBake toolkit i)) = true).
Proof.
  intros Hc Hv Hr. eexists. split; [now apply getArgs_renders |].
  rewrite in_renderAll_switch.
  - unfold allArgs, bakeArgs, provenanceArgs.
    change (Pos "bake" :: ?l) with ([Pos "bake"] ++ l).
    rewrite !switchSet_app, switchSet_positional.
    rewrite !switchSet_whenA, !switchSet_opts, !switchSet_app.
    destruct (truthy (provenance (afterBake toolkit i)));
      rewrite ?switchSet_whenA; cbn [switchSet existsb];
      rewrite ?andb_false_r, ?orb_false_r; cbn [orb]; reflexivity.
  - eapply Forall_impl; [| apply allArgs_wellFormed].
    intros a. apply cleanSwitch_of_wellFormed.
    + intros [H | H].
      * apply Hr. now left.
      * apply fieldValues_afterBake in H. destruct H as [-> | H]; auto.
        apply Hr. right. now left.
    + intros H. apply Hr. now do 2 right.
Qed.

End ArgumentsOfGetArgs.

(** ** Reading the record back from the list *)

Lemma when_nil (b : bool) : when b [] = [].
Proof. now destruct b. Qed.

Section FieldsAfterBake.

Variable toolkit : Toolkit.

(** [getBakeArgs] leaves the fields it reads after the entitlement
    phase as they were. *)
Lemma afterBake_fields (i : Inputs) :
  builder (afterBake toolkit i) = builder i
  /\ source (afterBake toolkit i) = source i
  /\ call (afterBake toolkit i) = call i
  /\ files (afterBake toolkit i) = files i
  /\ no_cache (afterBake toolkit i) = no_cache i
  /\ pull (afterBake toolkit i) = pull i
  /\ load (afterBake toolkit i) = load i
  /\ provenance (afterBake toolkit i) = provenance i
  /\ push (afterBake toolkit i) = push i
  /\ sbom (afterBake toolkit i) = sbom i
  /\ set (afterBake toolkit i) = set i.
Proof. rewrite afterBake_with_allow. repeat split. Qed.

End FieldsAfterBake.

(** Rewrites the fields of the record [getBakeArgs] leaves. *)
Ltac fields_afterBake toolkit i :=
  destruct (afterBake_fields toolkit i)
    as (-> & -> & -> & -> & -> & -> & -> & -> & -> & -> & ->).

(** Computes the values a flag is given by the arguments of [getArgs]. *)
Ltac read_options :=
  unfold allArgs, bakeArgs, commonArgs, provenanceArgs;
  change (Pos "bake" :: ?l) with ([Pos "bake"] ++ l);
  repeat (progress
    (rewrite ?optValues_app, ?optValues_positional, ?optValues_whenA,
       ?optValues_opts;
     try match goal with
       | |- context [optValues _ (if ?b then _ else _)] => destruct b
       end;
     cbn [optValues flat_map app String.eqb Ascii.eqb Bool.eqb];
     rewrite ?when_nil, ?app_nil_r)).

(** Closes a goal [~ In flag l] on a list of literals. *)
Ltac not_listed :=
  let H := fresh "H" in
  cbn; intros H;
  repeat (destruct H as [H | H]; [discriminate H |]); exact H.

(** Unfolds the arguments of [getArgs] on the record [getBakeArgs]
    leaves, with the fields of that record rewritten. *)
Ltac open_args toolkit i :=
  unfold allArgs, bakeArgs, commonArgs, provenanceArgs, defaultProvenanceGate;
  destruct (afterBake_fields toolkit i)
    as (-> & -> & -> & -> & -> & -> & -> & -> & -> & -> & ->).

(** X1. The values of [--file] in the list of [getArgs] are the [files]
    of the record, in their order, when no value of the record is the
    token [--file]. *)
Theorem files_read_back {BakeDefinition : Type} (host : Host BakeDefinition)
  (definition : BakeDefinition) (toolkit : Toolkit) (inputs : Inputs) :
  call inputs = "" \/ buildx_versionSatisfies toolkit ">=0.16.0" = true ->
  ~ In "--file" (fieldValues host toolkit inputs) ->
  exists out,
    fst (getArgs host definition toolkit inputs) = Ok out
    /\ flagValues "--file" out = files inputs.
Proof.
  intros Hcall Hclean. apply callUnsupported_false_iff in Hcall.
  destruct (getArgs_read_option host definition toolkit "--file" inputs
              Hcall Hclean ltac:(not_listed)) as [out [Hout Hread]].
  exists out. split; [exact Hout |]. rewrite Hread.
  open_args toolkit inputs. read_options; reflexivity.
Qed.

Lemma files_read_back_witness :
  exists out,
    fst (getArgs host_public false toolkit_0_18 full_inputs) = Ok out
    /\ flagValues "--file" out = ["docker-bake.hcl"; "override.hcl"].
Proof.
  apply (files_read_back host_public false toolkit_0_18 full_inputs);
    [right; reflexivity | not_listed].
Defined.

(** X2. The values of [--set] in the list of [getArgs] are the [set]
    entries of the record, each one whole and in its order, when no
    value of the record is the token [--set]. *)
Theorem set_read_back {BakeDefinition : Type} (host : Host BakeDefinition)
  (definition : BakeDefinition) (toolkit : Toolkit) (inputs : Inputs) :
  call inputs = "" \/ buildx_versionSatisfies toolkit ">=0.16.0" = true ->
  ~ In "--set" (fieldValues host toolkit inputs) ->
  exists out,
    fst (getArgs host definition toolkit inputs) = Ok out
    /\ flagValues "--set" out = set inputs.
Proof.
  intros Hcall Hclean. apply callUnsupported_false_iff in Hcall.
  destruct (getArgs_read_option host definition toolkit "--set" inputs
              Hcall Hclean ltac:(not_listed)) as [out [Hout Hread]].
  exists out. split; [exact Hout |]. rewrite Hread.
  open_args toolkit inputs. read_options; reflexivity.
Qed.

Lemma set_read_back_witness :
  exists out,
    fst (getArgs host_public false toolkit_0_18 full_inputs) = Ok out
    /\ flagValues "--set" out = ["app.args.V=1,2"; "*.platform=linux/amd64"].
Proof.
  apply (set_read_back host_public false toolkit_0_18 full_inputs);
    [right; reflexivity | not_listed].
Defined.

(** X3. The list of [getArgs] gives [--metadata-file] the path of the
    toolkit, once, when the orchestrator satisfies [>=0.6.0], and no
    value otherwise. *)
Theorem metadata_file_gated {BakeDefinition : Type}
  (host : Host BakeDefinition) (definition : BakeDefinition)
  (toolkit : Toolkit) (inputs : Inputs) :
  call inputs = "" \/ buildx_versionSatisfies toolkit ">=0.16.0" = true ->
  ~ In "--metadata-file" (fieldValues host toolkit inputs) ->
  exists out,
    fst (getArgs host definition toolkit inputs) = Ok out
    /\ flagValues "--metadata-file" out
       = if buildx_versionSatisfies toolkit ">=0.6.0"
         then [buildxBake_getMetadataFilePath toolkit]
         else [].
Proof.
  intros Hcall Hclean. apply callUnsupported_false_iff in Hcall.
  destruct (getArgs_read_option host definition toolkit "--metadata-file"
              inputs Hcall Hclean ltac:(not_listed)) as [out [Hout Hread]].
  exists out. split; [exact Hout |]. rewrite Hread.
  open_args toolkit inputs. read_options; reflexivity.
Qed.

Lemma metadata_file_gated_witness :
  (exists out,
     fst (getArgs host_public false toolkit_0_18 full_inputs) = Ok out
     /\ flagValues "--metadata-file" out = ["/tmp/metadata.json"])
  /\ exists out,
      fst (getArgs host_public false toolkit_0_5 push_inputs) = Ok out
      /\ flagValues "--metadata-file" out = [].
Proof.
  split.
  - apply (metadata_file_gated host_public false toolkit_0_18 full_inputs);
      [right; reflexivity | not_listed].
  - apply (metadata_file_gated host_public false toolkit_0_5 push_inputs);
      [left; reflexivity | not_listed].
Defined.

(** X4. When the record has a [provenance] and the orchestrator
    satisfies [>=0.10.0], the list of [getArgs] gives [--provenance]
    that value and no other: the default attestation is not added,
    whatever the opt-out, the backend, the definition and the
    visibility of the repository. *)
Theorem explicit_provenance_verbatim {BakeDefinition : Type}
  (host : Host BakeDefinition) (definition : BakeDefinition)
  (toolkit : Toolkit) (inputs : Inputs) :
  provenance inputs <> "" ->
  buildx_versionSatisfies toolkit ">=0.10.0" = true ->
  call inputs = "" \/ buildx_versionSatisfies toolkit ">=0.16.0" = true ->
  ~ In "--provenance" (fieldValues host toolkit inputs) ->
  exists out,
    fst (getArgs host definition toolkit inputs) = Ok out
    /\ flagValues "--provenance" out = [provenance inputs].
Proof.
  intros Hprov H10 Hcall Hclean. apply callUnsupported_false_iff in Hcall.
  apply truthy_true_iff in Hprov.
  destruct (getArgs_read_option host definition toolkit "--provenance" inputs
              Hcall Hclean ltac:(not_listed)) as [out [Hout Hread]].
  exists out. split; [exact Hout |]. rewrite Hread.
  open_args toolkit inputs. rewrite Hprov, H10.
  destruct (truthy (sbom inputs)); read_options; reflexivity.
Qed.

Lemma explicit_provenance_verbatim_witness :
  exists out,
    fst (getArgs host_private false toolkit_0_18 full_inputs) = Ok out
    /\ flagValues "--provenance" out = ["mode=max"].
Proof.
  apply (explicit_provenance_verbatim host_private false toolkit_0_18
           full_inputs);
    [discriminate | reflexivity | right; reflexivity | not_listed].
Defined.

(** X5. The list of [getArgs] gives [--sbom] the [sbom] of the record
    when it is not empty and the orchestrator satisfies [>=0.10.0], and
    no value otherwise: there is no default for it. *)
Theorem sbom_verbatim {BakeDefinition : Type} (host : Host BakeDefinition)
  (definition : BakeDefinition) (toolkit : Toolkit) (inputs : Inputs) :
  call inputs = "" \/ buildx_versionSatisfies toolkit ">=0.16.0" = true ->
  ~ In "--sbom" (fieldValues host toolkit inputs) ->
  exists out,
    fst (getArgs host definition toolkit inputs) = Ok out
    /\ flagValues "--sbom" out
       = if buildx_versionSatisfies toolkit ">=0.10.0"
            && negb (sbom inputs =? "")
         then [sbom inputs]
         else [].
Proof.
  intros Hcall Hclean. apply callUnsupported_false_iff in Hcall.
  destruct (getArgs_read_option host definition toolkit "--sbom" inputs
              Hcall Hclean ltac:(not_listed)) as [out [Hout Hread]].
  exists out. split; [exact Hout |]. rewrite Hread.
  open_args toolkit inputs. unfold truthy.
  destruct (buildx_versionSatisfies toolkit ">=0.10.0");
    destruct (sbom inputs =? ""); read_options; reflexivity.
Qed.

Lemma sbom_verbatim_witness :
  (exists out,
     fst (getArgs host_public false toolkit_0_18 full_inputs) = Ok out
     /\ flagValues "--sbom" out = ["true"])
  /\ exists out,
      fst (getArgs host_public false toolkit_0_18 push_inputs) = Ok out
      /\ flagValues "--sbom" out = [].
Proof.
  split.
  - apply (sbom_verbatim host_public false toolkit_0_18 full_inputs);
      [right; reflexivity | not_listed].
  - apply (sbom_verbatim host_public false toolkit_0_18 push_inputs);
      [left; reflexivity | not_listed].
Defined.

(** X6. The list of [getArgs] gives [--builder] the [builder] of the
    record when it is not empty, and no value otherwise. *)
Theorem builder_read_back {BakeDefinition : Type} (host : Host BakeDefinition)
  (definition : BakeDefinition) (toolkit : Toolkit) (inputs : Inputs) :
  call inputs = "" \/ buildx_versionSatisfies toolkit ">=0.16.0" = true ->
  ~ In "--builder" (fieldValues host toolkit inputs) ->
  exists out,
    fst (getArgs host definition toolkit inputs) = Ok out
    /\ flagValues "--builder" out
       = if builder inputs =? "" then [] else [builder inputs].
Proof.
  intros Hcall Hclean. apply callUnsupported_false_iff in Hcall.
  destruct (getArgs_read_option host definition toolkit "--builder" inputs
              Hcall Hclean ltac:(not_listed)) as [out [Hout Hread]].
  exists out. split; [exact Hout |]. rewrite Hread.
  open_args toolkit inputs. unfold truthy.
  destruct (builder inputs =? ""); read_options; reflexivity.
Qed.

Lemma builder_read_back_witness :
  exists out,
    fst (getArgs host_public false toolkit_0_18 full_inputs) = Ok out
    /\ flagValues "--builder" out = ["remote"].
Proof.
  apply (builder_read_back host_public false toolkit_0_18 full_inputs);
    [right; reflexivity | not_listed].
Defined.

(** X7. Each of the switches [--no-cache], [--pull], [--load] and
    [--push] is in the list of [getArgs] exactly when its field of the
    record is set, when no value of the record is one of them. *)
Theorem toggles_read_back {BakeDefinition : Type} (host : Host BakeDefinition)
  (definition : BakeDefinition) (toolkit : Toolkit) (inputs : Inputs) :
  call inputs = "" \/ buildx_versionSatisfies toolkit ">=0.16.0" = true ->
  (forall f, In f switchFlags -> ~ In f (fieldValues host toolkit inputs)) ->
  exists out,
    fst (getArgs host definition toolkit inputs) = Ok out
    /\ (In "--no-cache" out <-> no_cache inputs = true)
    /\ (In "--pull" out <-> pull inputs = true)
    /\ (In "--load" out <-> load inputs = true)
    /\ (In "--push" out <-> push inputs = true).
Proof.
  intros Hcall Hclean. apply callUnsupported_false_iff in Hcall.
  assert (Hread : forall f,
             In f switchFlags ->
             In f (renderAll (allArgs host definition toolkit
                                (afterBake toolkit inputs)))
             <-> switchSet f (commonArgs inputs) = true).
  { intros f Hf.
    destruct (getArgs_read_switch host definition toolkit f inputs Hcall
                (Hclean f Hf)) as [out [Hout Hin]].
    - unfold switchFlags in Hf. cbn [In] in Hf.
      destruct Hf as [<- | [<- | [<- | [<- | []]]]]; not_listed.
    - rewrite getArgs_renders in Hout by exact Hcall.
      injection Hout as <-. rewrite Hin.
      unfold commonArgs.
      destruct (afterBake_fields toolkit inputs)
        as (-> & _ & _ & _ & -> & -> & -> & _ & -> & _ & _).
      reflexivity. }
  eexists. split; [now apply getArgs_renders |].
  unfold switchFlags in Hread.
  repeat split; intros H.
  all: try (apply Hread in H; [| cbn [In]; pick_member];
            unfold commonArgs in H;
            rewrite !switchSet_app, !switchSet_whenA in H; cbn in H;
            rewrite ?andb_false_r, ?orb_false_r, ?andb_true_r in H;
            cbn in H; rewrite ?orb_false_r in H; exact H).
  all: apply Hread; [cbn [In]; pick_member |];
    unfold commonArgs; rewrite !switchSet_app, !switchSet_whenA, H; cbn;
    rewrite ?andb_false_r, ?orb_false_r, ?orb_true_r; reflexivity.
Qed.

Lemma toggles_read_back_witness :
  exists out,
    fst (getArgs host_public false toolkit_0_18 full_inputs) = Ok out
    /\ (In "--no-cache" out <-> no_cache full_inputs = true)
    /\ (In "--pull" out <-> pull full_inputs = true)
    /\ (In "--load" out <-> load full_inputs = true)
    /\ (In "--push" out <-> push full_inputs = true).
Proof.
  apply (toggles_read_back host_public false toolkit_0_18 full_inputs);
    [right; reflexivity |].
  intros f Hf. unfold switchFlags in Hf. cbn [In] in Hf.
  destruct Hf as [<- | [<- | [<- | [<- | []]]]]; not_listed.
Defined.

(** ** What [getArgs] does not read *)

Lemma afterBake_with_workdir (toolkit : Toolkit) (w : string) (i : Inputs) :
  afterBake toolkit (with_workdir w i) = with_workdir w (afterBake toolkit i).
Proof. unfold afterBake. now destruct (_ && _). Qed.

Lemma afterBake_with_github_token (toolkit : Toolkit) (t : string)
  (i : Inputs) :
  afterBake toolkit (with_github_token t i)
  = with_github_token t (afterBake toolkit i).
Proof. unfold afterBake. now destruct (_ && _). Qed.

Lemma afterBake_with_attestations (toolkit : Toolkit) (p s : string)
  (i : Inputs) :
  afterBake toolkit (with_attestations p s i)
  = with_attestations p s (afterBake toolkit i).
Proof. unfold afterBake. now destruct (_ && _). Qed.

(** X8. [getArgs] does not read [workdir] nor [github-token]: with any
    other working directory and token it returns the same list, or
    throws the same error, and leaves the two fields as they were
    given. *)
Theorem getArgs_ignores_workdir_and_token {BakeDefinition : Type}
  (host : Host BakeDefinition) (definition : BakeDefinition)
  (toolkit : Toolkit) (inputs : Inputs) (w t : string) :
  getArgs host definition toolkit (with_workdir w (with_github_token t inputs))
  = (fst (getArgs host definition toolkit inputs),
     with_workdir w
       (with_github_token t (snd (getArgs host definition toolkit inputs)))).
Proof.
  rewrite !getArgs_run. cbn [fst snd].
  rewrite afterBake_with_workdir, afterBake_with_github_token.
  reflexivity.
Qed.

(** X9. When the orchestrator does not satisfy [>=0.10.0], [getArgs]
    reads neither the [provenance] and [sbom] of the record, nor the
    host, nor the definition: with any other ones it returns the same
    list or throws the same error. *)
Theorem attestations_need_capability {BakeDefinition BakeDefinition' : Type}
  (host : Host BakeDefinition) (definition : BakeDefinition)
  (host' : Host BakeDefinition') (definition' : BakeDefinition')
  (toolkit : Toolkit) (inputs : Inputs) (p s : string) :
  buildx_versionSatisfies toolkit ">=0.10.0" = false ->
  fst (getArgs host' definition' toolkit (with_attestations p s inputs))
  = fst (getArgs host definition toolkit inputs).
Proof.
  intros H10. rewrite !getArgs_run. cbn [fst].
  rewrite afterBake_with_attestations.
  unfold bakeTokens, attestationTokens. rewrite H10.
  reflexivity.
Qed.

Lemma attestations_need_capability_witness :
  fst (getArgs host_private true toolkit_0_5
         (with_attestations "mode=max" "true" push_inputs))
  = fst (getArgs host_public false toolkit_0_5 push_inputs).
Proof.
  apply (attestations_need_capability host_public false host_private true
           toolkit_0_5 push_inputs "mode=max" "true").
  reflexivity.
Defined.

(** X10. A variable [BUILDX_NO_DEFAULT_ATTESTATIONS] that is empty, or
    that [Util.parseBool] reads as false, is as good as none: [getArgs]
    returns the same list and leaves the same record. *)
Theorem optout_empty_or_false {BakeDefinition : Type}
  (host : Host BakeDefinition) (definition : BakeDefinition)
  (toolkit : Toolkit) (inputs : Inputs) (v : string) :
  v = "" \/ Util_parseBool host v = false ->
  getArgs (with_optout (Some v) host) definition toolkit inputs
  = getArgs (with_optout None host) definition toolkit inputs.
Proof.
  intros Hv. rewrite !getArgs_run. f_equal.
  destruct (callUnsupported toolkit inputs); [reflexivity |].
  do 2 f_equal.
  unfold bakeTokens, attestationTokens, provenanceTokens,
    defaultProvenanceTokens, defaultProvenanceGate.
  assert (Hno : noDefaultAttestations (with_optout (Some v) host)
                = noDefaultAttestations (with_optout None host)).
  { unfold noDefaultAttestations. cbn.
    destruct Hv as [-> | Hv]; [reflexivity |].
    rewrite Hv. now destruct (truthy v). }
  rewrite Hno. reflexivity.
Qed.

Lemma optout_empty_or_false_witness :
  getArgs (with_optout (Some "") host_private) false toolkit_0_18 push_inputs
  = getArgs (with_optout None host_private) false toolkit_0_18 push_inputs
  /\ getArgs (with_optout (Some "0") host_private) false toolkit_0_18
       push_inputs
     = getArgs (with_optout None host_private) false toolkit_0_18 push_inputs.
Proof.
  split.
  - apply (optout_empty_or_false host_private false toolkit_0_18 push_inputs
             ""). left. reflexivity.
  - apply (optout_empty_or_false host_private false toolkit_0_18 push_inputs
             "0"). right. reflexivity.
Defined.

(** ** Calling [getArgs] again *)

(** X11. When the orchestrator does not satisfy both [>=0.17.0] and
    [>=0.18.0], [getArgs] leaves the record as it was, so a second call
    on the record it leaves gives what the first one gave. *)
Theorem getArgs_repeatable {BakeDefinition : Type}
  (host : Host BakeDefinition) (definition : BakeDefinition)
  (toolkit : Toolkit) (inputs : Inputs) :
  buildx_versionSatisfies toolkit ">=0.17.0" = false
  \/ buildx_versionSatisfies toolkit ">=0.18.0" = false ->
  snd (getArgs host definition toolkit inputs) = inputs
  /\ getArgs host definition toolkit
       (snd (getArgs host definition toolkit inputs))
     = getArgs host definition toolkit inputs.
Proof.
  intros H.
  assert (Hsame : snd (getArgs host definition toolkit inputs) = inputs).
  { rewrite getArgs_leaves. unfold afterBake.
    destruct H as [H | H]; rewrite H; [reflexivity | now rewrite andb_false_r]. }
  split; [exact Hsame | now rewrite Hsame].
Qed.

Lemma getArgs_repeatable_witness :
  snd (getArgs host_public false toolkit_0_17 full_inputs) = full_inputs
  /\ getArgs host_public false toolkit_0_17
       (snd (getArgs host_public false toolkit_0_17 full_inputs))
     = getArgs host_public false toolkit_0_17 full_inputs.
Proof.
  apply (getArgs_repeatable host_public false toolkit_0_17 full_inputs).
  right. reflexivity.
Defined.

Lemma with_allow_same (i : Inputs) : with_allow (allow i) i = i.
Proof. now destruct i. Qed.

(** X12. When the orchestrator satisfies [>=0.17.0] and [>=0.18.0],
    [n] calls of [getArgs] in a row on the same record leave it with
    ["fs=*"] [n] times at the end of [allow] and nothing else changed,
    whether the calls return or throw; the next call, when it returns
    and no value of the record outside [allow] is the token [--allow],
    gives [--allow] the entitlements of the record and then ["fs=*"]
    [n + 1] times. *)
Theorem getArgs_accumulates {BakeDefinition : Type}
  (host : Host BakeDefinition) (definition : BakeDefinition)
  (toolkit : Toolkit) (inputs : Inputs) (n : nat) :
  buildx_versionSatisfies toolkit ">=0.17.0" = true ->
  buildx_versionSatisfies toolkit ">=0.18.0" = true ->
  afterCalls host definition toolkit n inputs
  = with_allow (allow inputs ++ repeat "fs=*" n) inputs
  /\ (call inputs = "" \/ buildx_versionSatisfies toolkit ">=0.16.0" = true ->
      ~ In "--allow" (valuesOutsideAllow host toolkit inputs) ->
      exists out,
        fst (getArgs host definition toolkit
               (afterCalls host definition toolkit n inputs)) = Ok out
        /\ flagValues "--allow" out = allow inputs ++ repeat "fs=*" (S n)).
Proof.
  intros H17 H18.
  assert (Hafter : afterCalls host definition toolkit n inputs
                   = with_allow (allow inputs ++ repeat "fs=*" n) inputs).
  { induction n as [|n IH].
    - change (afterCalls host definition toolkit 0 inputs) with inputs.
      cbn [repeat]. rewrite app_nil_r.
      symmetry. apply with_allow_same.
    - change (afterCalls host definition toolkit (S n) inputs)
        with (snd (getArgs host definition toolkit
                     (afterCalls host definition toolkit n inputs))).
      rewrite IH, getArgs_leaves.
      unfold afterBake. rewrite H17, H18. cbn [andb].
      unfold allow_push, with_allow. cbn.
      now rewrite <- app_assoc, <- repeat_cons. }
  split; [exact Hafter |].
  intros Hcall Hclean. apply callUnsupported_false_iff in Hcall.
  rewrite Hafter.
  destruct (flagValues_allow_getArgs host definition toolkit
              (with_allow (allow inputs ++ repeat "fs=*" n) inputs))
    as [out [Hout Hval]]; [exact Hcall | exact Hclean |].
  exists out. split; [exact Hout |].
  rewrite Hval, H17, afterBake_allow, H17, H18. cbn [when andb with_allow allow].
  now rewrite <- app_assoc, <- repeat_cons.
Qed.

Lemma getArgs_accumulates_witness :
  afterCalls host_public false toolkit_0_18 3 full_inputs
  = with_allow ["network.host"; "security.insecure"; "fs=*"; "fs=*"; "fs=*"]
      full_inputs
  /\ exists out,
      fst (getArgs host_public false toolkit_0_18
             (afterCalls host_public false toolkit_0_18 3 full_inputs))
      = Ok out
      /\ flagValues "--allow" out
         = ["network.host"; "security.insecure";
            "fs=*"; "fs=*"; "fs=*"; "fs=*"].
Proof.
  destruct (getArgs_accumulates host_public false toolkit_0_18 full_inputs 3
              eq_refl eq_refl) as [Hafter Hnext].
  split; [exact Hafter |].
  apply Hnext; [right; reflexivity | not_listed].
Defined.

(** X13. When the orchestrator satisfies [>=0.17.0] but not
    [>=0.18.0], the list of [getArgs] gives [--allow] the entitlements
    of the record, in their order and nothing more, and the record is
    left as it was; no value of the record outside [allow] being the
    token [--allow]. *)
Theorem allow_verbatim_without_default {BakeDefinition : Type}
  (host : Host BakeDefinition) (definition : BakeDefinition)
  (toolkit : Toolkit) (inputs : Inputs) :
  buildx_versionSatisfies toolkit ">=0.17.0" = true ->
  buildx_versionSatisfies toolkit ">=0.18.0" = false ->
  call inputs = "" \/ buildx_versionSatisfies toolkit ">=0.16.0" = true ->
  ~ In "--allow" (valuesOutsideAllow host toolkit inputs) ->
  exists out,
    getArgs host definition toolkit inputs = (Ok out, inputs)
    /\ flagValues "--allow" out = allow inputs.
Proof.
  intros H17 H18 Hcall Hclean. apply callUnsupported_false_iff in Hcall.
  destruct (flagValues_allow_getArgs host definition toolkit inputs Hcall Hclean)
    as [out [Hout Hval]].
  exists out. split.
  - rewrite (surjective_pairing (getArgs host definition toolkit inputs)).
    rewrite Hout, getArgs_leaves. unfold afterBake. now rewrite H17, H18.
  - rewrite Hval, H17, afterBake_allow, H17, H18. cbn [when andb].
    apply app_nil_r.
Qed.

Lemma allow_verbatim_without_default_witness :
  exists out,
    getArgs host_public false toolkit_0_17 full_inputs = (Ok out, full_inputs)
    /\ flagValues "--allow" out = ["network.host"; "security.insecure"].
Proof.
  apply (allow_verbatim_without_default host_public false toolkit_0_17
           full_inputs);
    [reflexivity | reflexivity | right; reflexivity | not_listed].
Defined.

(** ** The record [getInputs] builds *)

(** X14. A record [getInputs] returns has a [workdir] that is not
    empty: the input of that name, or ["."] when the input is empty.
    Its [source] is what [getSourceInput] returns for the input
    [source], and is never ["."]. *)
Theorem getInputs_normalised (runner : Runner) (action : Action)
  (inputs : Inputs) :
  getInputs runner action = Ok inputs ->
  workdir inputs <> ""
  /\ (core_getInput runner "workdir" = "" -> workdir inputs = ".")
  /\ (core_getInput runner "workdir" <> "" ->
      workdir inputs = core_getInput runner "workdir")
  /\ getSourceInput runner "source" = Ok (source inputs)
  /\ source inputs <> ".".
Proof.
  unfold getInputs.
  destruct (getSourceInput runner "source") as [s | e] eqn:Hs; [| discriminate].
  intros [= <-]. cbn [workdir source]. unfold or_else.
  repeat split.
  - destruct (truthy (core_getInput runner "workdir")) eqn:Hw.
    + now apply truthy_true_iff.
    + discriminate.
  - intros H. apply truthy_false_iff in H. now rewrite H.
  - intros H. apply truthy_true_iff in H. now rewrite H.
  - unfold getSourceInput in Hs.
    destruct (handlebars_render runner (core_getInput runner "source")
                (Context_gitContext runner)) as [r | e]; [| discriminate].
    injection Hs as <-.
    destruct ((if negb (truthy r) then Context_gitContext runner else r) =? ".")
      eqn:Hdot; [discriminate |].
    now apply String.eqb_neq.
Qed.

Lemma getInputs_normalised_witness :
  exists inputs,
    getInputs (runner_of [("source", "."); ("call", "check")]
                 "https://github.com/o/r.git#main")
      (action_with [("files", ["docker-bake.hcl"]); ("targets", ["app"])]
         [("push", true)] "mode=max")
    = Ok inputs
    /\ workdir inputs = "."
    /\ source inputs <> ".".
Proof.
  eexists. split; [reflexivity |].
  destruct (getInputs_normalised
              (runner_of [("source", "."); ("call", "check")]
                 "https://github.com/o/r.git#main")
              (action_with
                 [("files", ["docker-bake.hcl"]); ("targets", ["app"])]
                 [("push", true)] "mode=max")
              _ eq_refl) as (_ & Hdefault & _ & _ & Hsource).
  split; [exact (Hdefault eq_refl) | exact Hsource].
Defined.

(** X15. When the renderer throws on the input [source], [getInputs]
    throws the same error and builds no record. *)
Theorem getInputs_render_failure (runner : Runner) (action : Action)
  (e : string) :
  handlebars_render runner (core_getInput runner "source")
    (Context_gitContext runner) = Throw e ->
  getInputs runner action = Throw e
  /\ forall inputs, getInputs runner action <> Ok inputs.
Proof.
  intros H. unfold getInputs, getSourceInput. rewrite H.
  split; [reflexivity | discriminate].
Qed.

Lemma getInputs_render_failure_witness :
  getInputs (runner_of [("source", "{{")] "https://github.com/o/r.git#main")
    (action_with [("targets", ["app"])] [] "")
  = Throw "Parse error".
Proof.
  apply (getInputs_render_failure
           (runner_of [("source", "{{")] "https://github.com/o/r.git#main")
           (action_with [("targets", ["app"])] [] "") "Parse error").
  reflexivity.
Defined.

(** ** Failures of the synthesizer and of its collaborators *)





Section ThrowingRuns.

Context {BakeDefinition : Type}.
Variable host : Throwing.Host BakeDefinition.
Variable definition : BakeDefinition.
Variable toolkit : Throwing.Toolkit.








End ThrowingRuns.



